(** * ml_tm_utils_pub.utils_geodata: tile pyramids, tile identifiers,
      stripped task geometries and the area of a pixel

    A shallow embedding of [src/ml_tm_utils_pub/utils_geodata.py].

    Python integers are unbounded: they are [Z].  Python strings are
    [string] (a sequence of bytes; the identifiers built here are ASCII).
    A Python call either returns a value or raises: [result].  The one
    loop of the module, the [while not stack.empty()] of
    [get_tile_pyramid], is run on fuel, one unit per iteration; [None]
    stands for "the fuel ran out before the loop ended" and is kept apart
    from a raised exception. *)

From Stdlib Require Import ZArith List String Ascii Bool Lia.
From Stdlib Require Import Permutation Sorted FinFun OrderedTypeEx.
From Stdlib Require Import DecimalString DecimalPos DecimalZ.
From Stdlib Require Import PrimFloat Uint63 SpecFloat FloatOps FloatAxioms.
Import ListNotations.

#[local] Set Warnings "-register-all,-inexact-float".

#[local] Open Scope string_scope.
#[local] Open Scope list_scope.
#[local] Open Scope Z_scope.

(** ** Exceptions and results *)

(** The exceptions that the modelled code and the builtins it calls can
    raise.  [NotModelled] is not a Python exception: it marks an input of a
    builtin ([str.format], [int]) that lies outside the fragment of that
    builtin written out below. *)
Inductive exn : Type :=
| AssertionError
| KeyError
| ValueError
| IndexError
| TypeError
| AttributeError
| OverflowError
| NotModelled.

Inductive result (A : Type) : Type :=
| Ok (a : A)
| Raise (e : exn).

Arguments Ok {A} a.
Arguments Raise {A} e.

Definition bind {A B : Type} (r : result A) (k : A -> result B) : result B :=
  match r with
  | Ok a => k a
  | Raise e => Raise e
  end.

Notation "x <- c1 ;; c2" := (bind c1 (fun x => c2))
  (at level 61, c1 at next level, right associativity).

Fixpoint mapM {A B : Type} (f : A -> result B) (l : list A) : result (list B) :=
  match l with
  | [] => Ok []
  | a :: l' => b <- f a;; bs <- mapM f l';; Ok (b :: bs)
  end.

(** ** pygeotile's Tile *)

(** [pygeotile.tile.Tile] is a named tuple [(tms_x, tms_y, zoom)]; two
    tiles are equal when the three fields are. *)
Record Tile : Type := mkTile { tms_x : Z; tms_y : Z; zoom : Z }.

(** The property [Tile.tms]. *)
Definition tms (t : Tile) : Z * Z := (tms_x t, tms_y t).

(** The least integer that [float()] refuses: it is halfway between the
    largest binary64 number, [2^1024 - 2^971], and [2^1024], and rounds to
    the latter; every smaller integer rounds to a float. *)
Definition int_too_large : Z := 2 ^ 1024 - 2 ^ 970.

(** [Tile.from_tms(tms_x, tms_y, zoom)], the constructor of the pygeotile
    package that every tile of the module goes through:
<<
    max_tile = (2 ** zoom) - 1
    assert 0 <= tms_x <= max_tile, ...
    assert 0 <= tms_y <= max_tile, ...
    return cls(tms_x=tms_x, tms_y=tms_y, zoom=zoom)
>>
    For a negative [zoom] Python computes [2 ** zoom] in floats, from
    [float(zoom)]: that conversion raises [OverflowError] when
    [zoom <= - int_too_large]; otherwise the power is a float in [0, 1)
    (zero when it underflows), so [max_tile] is negative and the first
    assertion fails whatever [tms_x] is.  [Z.pow] gives [2 ^ zoom = 0] for
    a negative [zoom], [max_tile = -1], and the same failure.  The zoom
    itself is not checked. *)
Definition from_tms (x y z : Z) : result Tile :=
  if z <=? - int_too_large then Raise OverflowError
  else
    let max_tile := 2 ^ z - 1 in
    if negb ((0 <=? x) && (x <=? max_tile)) then Raise AssertionError
    else if negb ((0 <=? y) && (y <=? max_tile)) then Raise AssertionError
    else Ok (mkTile x y z).

(** ** [_get_quadrant_tiles] *)

Definition _get_quadrant_tiles (tile : Tile) : result (list Tile) :=
  let ul := (fst (tms tile) * 2, snd (tms tile) * 2) in
  t_ul <- from_tms (fst ul) (snd ul) (zoom tile + 1);;
  t_ll <- from_tms (fst ul) (snd ul + 1) (zoom tile + 1);;
  t_ur <- from_tms (fst ul + 1) (snd ul) (zoom tile + 1);;
  t_lr <- from_tms (fst ul + 1) (snd ul + 1) (zoom tile + 1);;
  Ok [t_ul; t_ll; t_ur; t_lr].

(** ** Dictionaries of integers, [str] of an integer, [str.format] *)

(** The dictionaries of the tile code ([top_tile_dict], [tile_dict]) map the
    keys ['x'], ['y'], ['z'] to integers: association lists, first match
    wins. *)
Definition pydict : Type := list (string * Z).

Fixpoint dict_get (d : pydict) (k : string) : result Z :=
  match d with
  | [] => Raise KeyError
  | (k', v) :: d' => if (k' =? k)%string then Ok v else dict_get d' k
  end.

(** [dict(x=..., y=..., z=...)] *)
Definition dict_xyz (x y z : Z) : pydict := [("x", x); ("y", y); ("z", z)].

(** [str(n)] for an integer [n]: decimal digits, a leading ['-'] when
    negative, no leading zero.  No bound on the number of digits, as in
    Python 3.6, the version the package declares (later versions refuse
    to print integers of more than 4300 digits unless told otherwise). *)
Definition str_int (n : Z) : string := NilZero.string_of_int (Z.to_int n).

Definition is_digit (c : ascii) : bool :=
  (Ascii.leb "0" c && Ascii.leb c "9")%char.

Fixpoint all_digits (s : string) : bool :=
  match s with
  | EmptyString => true
  | String c s' => is_digit c && all_digits s'
  end.

(** The value of the replacement field [{name}] under [**kw]: an empty or
    numeric name asks for a positional argument, and there is none.  (A
    numeric name too long for a machine integer is refused by Python in a
    platform-dependent way; ten digits or more are left out.) *)
Definition format_field (name : string) (kw : pydict) : result string :=
  if all_digits name then
    if (String.length name <=? 9)%nat then Raise IndexError
    else Raise NotModelled
  else v <- dict_get kw name;; Ok (str_int v).

(** Characters of a replacement field that are left out: the start of a
    conversion, of a format specification, of an attribute or of an index,
    and bytes outside ASCII. *)
Definition field_special (c : ascii) : bool :=
  ((c =? "!") || (c =? ":") || (c =? ".") || (c =? "["))%char
  || (128 <=? nat_of_ascii c)%nat.

(** [str.format] applied to [fmt] with the keyword arguments [kw], read
    left to right.  [field] is [None] in literal
    text and [Some name] inside a replacement field whose name read so far
    is [name]; [out] is the text produced so far.  Written out: literal
    text, the escapes [{{] and [}}], and fields [{name}] looked up in [kw].
    A field with a conversion, a format specification, an attribute, an
    index or a non-ASCII name is outside this fragment ([NotModelled]). *)
Fixpoint format_go (s : string) (field : option string) (kw : pydict)
  (out : string) : result string :=
  match s with
  | EmptyString =>
      match field with
      | None => Ok out
      | Some _ => Raise ValueError
      end
  | String c s' =>
      match field with
      | None =>
          if (c =? "{")%char then
            match s' with
            | EmptyString => Raise ValueError
            | String c' s'' =>
                if (c' =? "{")%char then format_go s'' None kw (out ++ "{")%string
                else format_go s' (Some "") kw out
            end
          else if (c =? "}")%char then
            match s' with
            | EmptyString => Raise ValueError
            | String c' s'' =>
                if (c' =? "}")%char then format_go s'' None kw (out ++ "}")%string
                else Raise ValueError
            end
          else format_go s' None kw (out ++ String c "")%string
      | Some name =>
          if (c =? "}")%char then
            match format_field name kw with
            | Ok v => format_go s' None kw (out ++ v)%string
            | Raise e => Raise e
            end
          else if (c =? "{")%char then Raise ValueError
          else if field_special c then Raise NotModelled
          else format_go s' (Some (name ++ String c "")%string) kw out
      end
  end.

Definition str_format (fmt : string) (kw : pydict) : result string :=
  format_go fmt None kw "".

(** ** [get_tile_pyramid] *)

(** The default of the parameter [ret_format]. *)
Definition default_format : string := "{z}-{x}-{y}".

(** [queue.LifoQueue]: the head of the list is the top of the stack. *)
Definition LifoQueue : Type := list Tile.

Definition put (stack : LifoQueue) (t : Tile) : LifoQueue := t :: stack.

(** [for rt in tiles: stack.put(rt)] *)
Definition put_all (stack : LifoQueue) (tiles : list Tile) : LifoQueue :=
  fold_left put tiles stack.

(** The loop [while not stack.empty(): ...] with [fuel] iterations allowed.
    It ends normally, returning [desired_tiles], when the stack is empty. *)
Fixpoint while_loop (fuel : nat) (max_zoom : Z) (ret_format : string)
  (stack : LifoQueue) (desired_tiles : list string)
  : option (result (list string)) :=
  match stack with
  | [] => Some (Ok desired_tiles)
  | temp_tile :: stack' =>
      match fuel with
      | O => None
      | S fuel' =>
          if zoom temp_tile >=? max_zoom then
            let tile_dict :=
              dict_xyz (fst (tms temp_tile)) (snd (tms temp_tile))
                       (zoom temp_tile) in
            match str_format ret_format tile_dict with
            | Ok s =>
                while_loop fuel' max_zoom ret_format stack'
                           (desired_tiles ++ [s])
            | Raise e => Some (Raise e)
            end
          else
            match _get_quadrant_tiles temp_tile with
            | Ok children =>
                while_loop fuel' max_zoom ret_format
                           (put_all stack' children) desired_tiles
            | Raise e => Some (Raise e)
            end
      end
  end.

(** [get_tile_pyramid(top_tile_dict, max_zoom, ret_format)].  The top tile
    is built before the loop starts, so its failure does not depend on the
    fuel. *)
Definition get_tile_pyramid (fuel : nat) (top_tile_dict : pydict)
  (max_zoom : Z) (ret_format : string) : option (result (list string)) :=
  match (x <- dict_get top_tile_dict "x";;
         y <- dict_get top_tile_dict "y";;
         z <- dict_get top_tile_dict "z";;
         from_tms x y z) with
  | Raise e => Some (Raise e)
  | Ok top => while_loop fuel max_zoom ret_format (put [] top) []
  end.

(** ** Reading an identifier back: [cog_windowed_read], lines 178-180 *)

(** [s.split(sep)] for a separator of one character. *)
Fixpoint split (sep : ascii) (s : string) : list string :=
  match s with
  | EmptyString => [""]
  | String c s' =>
      if (c =? sep)%char then "" :: split sep s'
      else match split sep s' with
           | [] => [String c ""]
           | h :: t => String c h :: t
           end
  end.

(** [int(s)] on the strings [-?[0-9]+]; Python also accepts a leading [+],
    surrounding white space and underscores between digits, which no
    string produced by [str_int] has, and here those raise too. *)
Definition py_int (s : string) : result Z :=
  match NilZero.int_of_string s with
  | Some d => Ok (Z.of_int d)
  | None => Raise ValueError
  end.

(** The branch of [cog_windowed_read] for a [str] argument:
<<
    z, x, y = [int(val) for val in tile_ind.split('-')]
    tile = Tile.from_tms(x, y, z)
>>  *)
Definition tile_of_ind (tile_ind : string) : result Tile :=
  vals <- mapM py_int (split "-" tile_ind);;
  match vals with
  | [z; x; y] => from_tms x y z
  | _ => Raise ValueError
  end.

(** ** Python values, as [json.loads] returns them *)

(** A JSON document once loaded: [None], booleans, integers, floats (IEEE
    binary64), strings, lists, and dictionaries with string keys in
    insertion order (keys are unique in what [json.loads] returns). *)
Inductive value : Type :=
| VNone
| VBool (b : bool)
| VInt (n : Z)
| VFloat (f : float)
| VStr (s : string)
| VList (l : list value)
| VDict (d : list (string * value)).

(** Builtins and library functions the module calls and whose algorithms
    are not written out here: the [repr] of a float (shortest round-trip
    decimal) and of a string (quoting and escapes), and
    [hashlib.md5(s.encode('utf-8')).hexdigest()]. *)
Class Builtins : Type := {
  repr_float : float -> string;
  repr_str : string -> string;
  md5_hexdigest : string -> string
}.

Definition squote : ascii := "'"%char.
Definition dquote : ascii := "034"%char.
Definition newline : string := String "010"%char "".

(** [repr(v)]: elements of lists and dictionaries are shown with [repr]. *)
Fixpoint repr `{Builtins} (v : value) : string :=
  match v with
  | VNone => "None"
  | VBool true => "True"
  | VBool false => "False"
  | VInt n => str_int n
  | VFloat f => repr_float f
  | VStr s => repr_str s
  | VList l => "[" ++ String.concat ", " (map repr l) ++ "]"
  | VDict d =>
      "{" ++ String.concat ", "
               (map (fun kv : string * value => let (k, x) := kv in
                               repr_str k ++ ": " ++ repr x) d) ++ "}"
  end%string.

(** [str(v)] is [repr(v)] except on a string, which is itself. *)
Definition str `{Builtins} (v : value) : string :=
  match v with
  | VStr s => s
  | _ => repr v
  end.

(** [s.replace(a, b)] for one-character [a] and [b]. *)
Fixpoint replace (a b : ascii) (s : string) : string :=
  match s with
  | EmptyString => EmptyString
  | String c s' => String (if (c =? a)%char then b else c) (replace a b s')
  end.

Fixpoint lookup (d : list (string * value)) (k : string) : option value :=
  match d with
  | [] => None
  | (k', v) :: d' => if (k' =? k)%string then Some v else lookup d' k
  end.

(** [obj[key]] for a string [key]: only a dictionary can be subscripted
    with a string. *)
Definition getitem (obj : value) (key : string) : result value :=
  match obj with
  | VDict d =>
      match lookup d key with
      | Some v => Ok v
      | None => Raise KeyError
      end
  | _ => Raise TypeError
  end.

(** [obj.keys()]: only a dictionary has the method. *)
Definition keys (obj : value) : result (list string) :=
  match obj with
  | VDict d => Ok (map fst d)
  | _ => Raise AttributeError
  end.

Fixpoint chars (s : string) : list value :=
  match s with
  | EmptyString => []
  | String c s' => VStr (String c "") :: chars s'
  end.

(** The elements a [for] loop over [obj] visits. *)
Definition iter (obj : value) : result (list value) :=
  match obj with
  | VList l => Ok l
  | VDict d => Ok (map (fun kv => VStr (fst kv)) d)
  | VStr s => Ok (chars s)
  | _ => Raise TypeError
  end.

(** [sorted(l)] on strings.  Python's sort is stable and compares with
    [<], which on strings is the order of the code points (that of the
    bytes of their UTF-8 encoding). *)
Fixpoint insert_sorted (x : string) (l : list string) : list string :=
  match l with
  | [] => [x]
  | y :: l' => if (y <? x)%string then y :: insert_sorted x l' else x :: l
  end.

Definition sorted (l : list string) : list string :=
  fold_right insert_sorted [] l.

(** ** [get_stripped_geojson_tasks], [_get_md5_checksum],
       [_test_geoj_equality] *)

(** The template ['{{"taskID": {}, "geometry": {}}}'] filled with two
    strings: the doubled braces are literal braces. *)
Definition task_line (task_id geometry : string) : string :=
  ("{" ++ String dquote "taskID" ++ String dquote ": " ++ task_id
   ++ ", " ++ String dquote "geometry" ++ String dquote ": " ++ geometry
   ++ "}")%string.

(** One turn of the loop over the features: the line appended for [task],
<<
    '{{"taskID": {}, "geometry": {}}}'.format(
        str(task['properties']['taskId']).replace("'", '"'),
        str(task['geometry']).replace("'", '"'))
>>  *)
Definition stripped_task `{Builtins} (task : value) : result string :=
  properties <- getitem task "properties";;
  taskId <- getitem properties "taskId";;
  geometry <- getitem task "geometry";;
  Ok (task_line (replace squote dquote (str taskId))
                (replace squote dquote (str geometry))).

(** [get_stripped_geojson_tasks], from the value [json.loads(text_data)]
    on. *)
Definition get_stripped_geojson_tasks `{Builtins} (json_dict : value)
  : result string :=
  ks <- keys json_dict;;
  if negb (existsb (String.eqb "tasks") ks) then Raise ValueError
  else
    tasks <- getitem json_dict "tasks";;
    features <- getitem tasks "features";;
    feature_list <- iter features;;
    stripped_tasks <- mapM stripped_task feature_list;;
    Ok (String.concat newline (sorted stripped_tasks)).

Definition _get_md5_checksum `{Builtins} (str_obj : string) : string :=
  md5_hexdigest str_obj.

Definition _test_geoj_equality `{Builtins} (geojson_1 geojson_2 : value)
  : result bool :=
  s1 <- get_stripped_geojson_tasks geojson_1;;
  s2 <- get_stripped_geojson_tasks geojson_2;;
  let h1 := _get_md5_checksum s1 in
  let h2 := _get_md5_checksum s2 in
  Ok (h1 =? h2)%string.

(** ** [get_pixel_area] *)




(** The float of a small non-negative integer (exact below [2^53]). *)
Definition float_of_Z (n : Z) : float := PrimFloat.of_uint63 (Uint63.of_Z n).



(** ** The loop of [get_tile_pyramid], iteration by iteration *)

(** The stack and the list [desired_tiles] after [n] iterations of the
    loop; [None] when the loop has ended or raised before. *)
Fixpoint state_after (n : nat) (max_zoom : Z) (ret_format : string)
  (stack : LifoQueue) (desired_tiles : list string)
  : option (LifoQueue * list string) :=
  match n with
  | O => Some (stack, desired_tiles)
  | S n' =>
      match stack with
      | [] => None
      | temp_tile :: stack' =>
          if zoom temp_tile >=? max_zoom then
            let tile_dict :=
              dict_xyz (fst (tms temp_tile)) (snd (tms temp_tile))
                       (zoom temp_tile) in
            match str_format ret_format tile_dict with
            | Ok s =>
                state_after n' max_zoom ret_format stack'
                            (desired_tiles ++ [s])
            | Raise _ => None
            end
          else
            match _get_quadrant_tiles temp_tile with
            | Ok children =>
                state_after n' max_zoom ret_format
                            (put_all stack' children) desired_tiles
            | Raise _ => None
            end
      end
  end.

(** ** [cog_windowed_read]: the tile of its argument [tile_ind] *)

(** The argument [tile_ind]: a dictionary, a string, or anything else. *)
Inductive tile_arg : Type :=
| TileDict (d : pydict)
| TileStr (s : string)
| TileOther.

(** Lines 176-182 of [cog_windowed_read]; what follows them reads a raster
    and is not modelled. *)
Definition cog_tile (tile_ind : tile_arg) : result Tile :=
  match tile_ind with
  | TileDict d =>
      x <- dict_get d "x";;
      y <- dict_get d "y";;
      z <- dict_get d "z";;
      from_tms x y z
  | TileStr s => tile_of_ind s
  | TileOther => Raise ValueError
  end.

(** ** [utils_database]: the tables and the session *)

(** A row of [ml_projects].  Every column but the primary key can be
    NULL ([None]). *)
Record Project : Type := mkProject {
  project_pk : Z;
  tm_index : option Z;
  md5_hash : option string;
  json_geometry : option string
}.

(** A row of [tile_pred_buildings]. *)
Record TilePredBA : Type := mkTilePredBA {
  tile_pk : Z;
  project_id : option Z;
  tile_index : option string;
  building_area_ml : option float;
  building_area_osm : option float
}.

(** What a session sees of the database: the rows of the two tables, in
    the order in which a query without [ORDER BY] returns them. *)
Record Session : Type := mkSession {
  projects : list Project;
  tile_preds : list TilePredBA
}.

(** The value of a running total: the integer it starts as, or a float. *)
Inductive number : Type :=
| NInt (n : Z)
| NFloat (f : float).

(** [total += x] for a column value [x]: adding [None] is a [TypeError];
    an integer total (only [0] occurs) is converted to a float first. *)
Definition iadd (total : number) (x : option float) : result number :=
  match x with
  | None => Raise TypeError
  | Some f =>
      match total with
      | NInt n => Ok (NFloat (float_of_Z n + f)%float)
      | NFloat g => Ok (NFloat (g + f)%float)
      end
  end.

(** [column.in_(l)]: a NULL is in no list; strings are compared exactly
    (binary collation). *)
Definition in_ (column : option string) (l : list string) : bool :=
  match column with
  | Some s => existsb (String.eqb s) l
  | None => false
  end.

Definition get_total_tiles_building_area (tile_ind_list : list string)
  (session : Session) : result (number * number) :=
  fold_left
    (fun totals row =>
       t <- totals;;
       total_area_ml <- iadd (fst t) (building_area_ml row);;
       total_area_osm <- iadd (snd t) (building_area_osm row);;
       Ok (total_area_ml, total_area_osm))
    (filter (fun row => in_ (tile_index row) tile_ind_list) (tile_preds session))
    (Ok (NInt 0, NInt 0)).

(** The exceptions of [Query.one()]. *)
Inductive db_exn : Type :=
| NoResultFound
| MultipleResultsFound.

(** [query.one()] on the rows a query selects. *)
Definition one {A : Type} (rows : list A) : db_exn + A :=
  match rows with
  | [] => inl NoResultFound
  | [row] => inr row
  | _ => inl MultipleResultsFound
  end.

(** [Project.tm_index == proj_id] for an integer [proj_id]. *)
Definition tm_index_is (proj_id : Z) (p : Project) : bool :=
  match tm_index p with
  | Some i => i =? proj_id
  | None => false
  end.

(** [update_db_project]: the session after the call, or the exception of
    [one()].  The row that [one()] returns is the only one the filter
    selects; its two attributes are assigned. *)
Definition update_db_project (proj_id : Z) (geojson geojson_hash : string)
  (session : Session) : db_exn + Session :=
  match one (filter (tm_index_is proj_id) (projects session)) with
  | inl e => inl e
  | inr _ =>
      inr (mkSession
             (map (fun p =>
                     if tm_index_is proj_id p then
                       mkProject (project_pk p) (tm_index p)
                                 (Some geojson_hash) (Some geojson)
                     else p)
                  (projects session))
             (tile_preds session))
  end.

(** ** [augment_geojson_building_area] *)

Fixpoint dict_set (d : list (string * value)) (key : string) (v : value)
  : list (string * value) :=
  match d with
  | [] => [(key, v)]
  | (k, x) :: d' =>
      if (k =? key)%string then (k, v) :: d' else (k, x) :: dict_set d' key v
  end.

(** [obj[key] = v] for a string [key]: the key keeps its place when it is
    there already, and goes last otherwise. *)
Definition setitem (obj : value) (key : string) (v : value) : result value :=
  match obj with
  | VDict d => Ok (VDict (dict_set d key v))
  | _ => Raise TypeError
  end.

(** The coordinates handed to [get_tile_pyramid] are modelled when they
    are integers. *)
Definition as_int (v : value) : result Z :=
  match v with
  | VInt n => Ok n
  | _ => Raise NotModelled
  end.

Definition number_value (n : number) : value :=
  match n with
  | NInt z => VInt z
  | NFloat f => VFloat f
  end.

(** The body of the loop over the tasks, for one task; [None] when the
    fuel given to [get_tile_pyramid] runs out.  The dictionary
    [task['properties']] is updated in place, so the task of the result is
    the task with its properties replaced. *)
Definition augment_task (fuel : nat) (session : Session) (task : value)
  : option (result value) :=
  match (properties <- getitem task "properties";;
         task_x <- getitem properties "taskX";;
         task_y <- getitem properties "taskY";;
         task_zoom <- getitem properties "taskZoom";;
         x <- as_int task_x;;
         y <- as_int task_y;;
         z <- as_int task_zoom;;
         Ok (dict_xyz x y z)) with
  | Raise e => Some (Raise e)
  | Ok tile_dict =>
      match get_tile_pyramid fuel tile_dict 18 default_format with
      | None => None
      | Some (Raise e) => Some (Raise e)
      | Some (Ok child_tiles) =>
          Some (areas <- get_total_tiles_building_area child_tiles session;;
                properties <- getitem task "properties";;
                properties1 <- setitem properties "building_area_ml_pred"
                                       (number_value (fst areas));;
                properties2 <- setitem properties1 "building_area_osm"
                                       (number_value (snd areas));;
                setitem task "properties" properties2)
      end
  end.

Fixpoint augment_tasks (fuel : nat) (session : Session) (tasks : list value)
  : option (result (list value)) :=
  match tasks with
  | [] => Some (Ok [])
  | task :: tasks' =>
      match augment_task fuel session task with
      | None => None
      | Some (Raise e) => Some (Raise e)
      | Some (Ok task1) =>
          match augment_tasks fuel session tasks' with
          | None => None
          | Some (Raise e) => Some (Raise e)
          | Some (Ok tasks1) => Some (Ok (task1 :: tasks1))
          end
      end
  end.

(** [augment_geojson_building_area(project, session)]: the project
    returned, for a project without shared sub-objects (as [json.loads]
    builds it).  When a task raises, the tasks before it have been updated
    already; that partial update is not part of the result here. *)
Definition augment_geojson_building_area (fuel : nat) (project : value)
  (session : Session) : option (result value) :=
  match (tasks <- getitem project "tasks";;
         features <- getitem tasks "features";;
         feature_list <- iter features;;
         Ok (tasks, features, feature_list)) with
  | Raise e => Some (Raise e)
  | Ok (tasks, features, feature_list) =>
      match augment_tasks fuel session feature_list with
      | None => None
      | Some (Raise e) => Some (Raise e)
      | Some (Ok feature_list1) =>
          match features with
          | VList _ =>
              Some (tasks1 <- setitem tasks "features" (VList feature_list1);;
                    setitem project "tasks" tasks1)
          | _ => Some (Ok project)
          end
      end
  end.

(** ** Vocabulary of the statements *)

(** The coordinates [x], [y] are those of a tile of zoom [z]. *)
Definition in_range (x y z : Z) : Prop :=
  0 <= x <= 2 ^ z - 1 /\ 0 <= y <= 2 ^ z - 1.

(** A valid tile coordinate: zoom in [0, 19], [x] and [y] in
    [0, 2^zoom - 1]. *)
Definition valid_tile (t : Tile) : Prop :=
  0 <= zoom t <= 19 /\ in_range (tms_x t) (tms_y t) (zoom t).

(** The dictionary [top_tile_dict] holds the coordinates of [t] under
    the keys ['x'], ['y'], ['z']. *)
Definition describes (top_tile_dict : pydict) (t : Tile) : Prop :=
  dict_get top_tile_dict "x" = Ok (tms_x t)
  /\ dict_get top_tile_dict "y" = Ok (tms_y t)
  /\ dict_get top_tile_dict "z" = Ok (zoom t).

(** The identifier of a tile under the default format, built by the call
    the loop makes; [None] if that call raised. *)
Definition serialize (t : Tile) : option string :=
  match str_format default_format (dict_xyz (tms_x t) (tms_y t) (zoom t)) with
  | Ok s => Some s
  | Raise _ => None
  end.

(** The identifier written out: ["{z}-{x}-{y}"] filled in. *)
Definition tile_ind (t : Tile) : string :=
  (str_int (zoom t) ++ "-" ++ str_int (tms_x t) ++ "-" ++ str_int (tms_y t))%string.

(** [c in s] for a character [c]. *)
Fixpoint mem_char (c : ascii) (s : string) : bool :=
  match s with
  | EmptyString => false
  | String c' s' => (c' =? c)%char || mem_char c s'
  end.

(** The child of [t] one zoom further, at offset [(dx, dy)] in the 2x2
    block. *)
Definition child (t : Tile) (dx dy : Z) : Tile :=
  mkTile (tms_x t * 2 + dx) (tms_y t * 2 + dy) (zoom t + 1).

(** The descendants of [t], [d] zooms further, in the order in which the
    depth-first loop reaches them: the child pushed last is expanded
    first. *)
Fixpoint leaves (d : nat) (t : Tile) : list Tile :=
  match d with
  | O => [t]
  | S d' =>
      leaves d' (child t 1 1) ++ leaves d' (child t 1 0)
      ++ leaves d' (child t 0 1) ++ leaves d' (child t 0 0)
  end.

(** Number of tiles of a quadtree of depth [d], which is the number of
    iterations the loop spends below a tile [d] zooms above [max_zoom]:
    [(4^(d+1) - 1) / 3]. *)
Fixpoint subtree_size (d : nat) : nat :=
  match d with
  | O => 1
  | S d' => 1 + 4 * subtree_size d'
  end.

(** Iterations the loop still has to make on a stack. *)
Definition work (max_zoom : Z) (stack : LifoQueue) : nat :=
  fold_right (fun t n => (subtree_size (Z.to_nat (max_zoom - zoom t)) + n)%nat)
             0%nat stack.

(** The order of [sorted] on strings. *)
Definition str_le (a b : string) : Prop := (a <=? b)%string = true.

(** A stand-in for the builtins, to run the model on documents whose
    strings have no quote, backslash or control character and that hold no
    float: such a string is shown between single quotes, as Python does;
    the text of a float and the digest are placeholders. *)
Definition sample_builtins : Builtins :=
  {| repr_float := fun _ => "0.0";
     repr_str := fun s => String squote (s ++ String squote "");
     md5_hexdigest := fun s => s |}.

(** A task of a Tasking Manager project, as loaded. *)
Definition sample_task (id : Z) (x y : Z) : value :=
  VDict [("type", VStr "Feature");
         ("geometry",
          VDict [("type", VStr "MultiPolygon");
                 ("coordinates",
                  VList [VList [VList [VList [VInt x; VInt y];
                                       VList [VInt x; VInt (y + 1)]]]])]);
         ("properties", VDict [("taskId", VInt id); ("taskStatus", VStr "READY")])].

Definition sample_project (tasks : list value) : value :=
  VDict [("projectId", VInt 26);
         ("tasks", VDict [("type", VStr "FeatureCollection");
                          ("features", VList tasks)])].


(** Below every tile of the stack lie at most three tiles per zoom level
    that separates the tile from zoom [z0]. *)
Fixpoint stack_bounded (z0 : Z) (stack : LifoQueue) : Prop :=
  match stack with
  | [] => True
  | u :: rest =>
      Z.of_nat (List.length rest) <= 3 * (zoom u - z0) /\ stack_bounded z0 rest
  end.

(** The call of [str.format] the loop makes for a leaf [u]. *)
Definition format_tile (ret_format : string) (u : Tile) : result string :=
  str_format ret_format (dict_xyz (fst (tms u)) (snd (tms u)) (zoom u)).

(** [task] has ['properties'] with a ['taskId'], and a ['geometry']. *)
Definition has_id_geometry (task : value) : Prop :=
  exists properties task_id geometry,
    getitem task "properties" = Ok properties
    /\ getitem properties "taskId" = Ok task_id
    /\ getitem task "geometry" = Ok geometry.

(** [task] holds the identifier [fst pair] under
    ['properties']['taskId'] and the geometry [snd pair] under
    ['geometry']; its other entries are free. *)
Definition task_pair (task : value) (pair : value * value) : Prop :=
  exists properties,
    getitem task "properties" = Ok properties
    /\ getitem properties "taskId" = Ok (fst pair)
    /\ getitem task "geometry" = Ok (snd pair).

(** [s] between double quotes. *)
Definition quoted (s : string) : string :=
  String dquote (s ++ String dquote "").


(** [ret_format] lies in the fragment of [str.format] written out in
    [format_go]: formatting a tile with it never meets a conversion, a
    format specification, an attribute, an index, a non-ASCII field name
    or a numeric field name of ten digits or more. *)
Definition format_modelled (ret_format : string) : Prop :=
  forall x y z, str_format ret_format (dict_xyz x y z) <> Raise NotModelled.

(** [n] fits the 64-bit signed integers of the database. *)
Definition fits_int64 (n : Z) : Prop := - 2 ^ 63 <= n < 2 ^ 63.

(** * Properties *)

(** ** The result monad *)

Lemma bind_Ok_inv {A B : Type} (r : result A) (k : A -> result B) (b : B) :
  bind r k = Ok b -> exists a, r = Ok a /\ k a = Ok b.
Proof. destruct r as [a|e]; simpl; intros E; [eauto | discriminate]. Qed.

Lemma mapM_Ok_Forall2 {A B : Type} (f : A -> result B) (l : list A) (bs : list B) :
  mapM f l = Ok bs <-> Forall2 (fun a b => f a = Ok b) l bs.
Proof.
  revert bs; induction l as [|a l IH]; intros bs; simpl.
  - split; [intros [= <-]; constructor | intros F; inversion F; reflexivity].
  - split.
    + intros E. apply bind_Ok_inv in E as (b & Eb & E).
      apply bind_Ok_inv in E as (bs' & Ebs & [= <-]).
      constructor; [assumption | now apply IH].
    + intros F. inversion F as [|? b ? bs' Eb F']; subst.
      rewrite Eb; simpl. apply IH in F'. rewrite F'. reflexivity.
Qed.

(** ** Tiles and their children *)

Lemma int_too_large_pos : 0 < int_too_large.
Proof. reflexivity. Qed.

Lemma in_range_zoom_nonneg (x y z : Z) : in_range x y z -> 0 <= z.
Proof.
  intros [Hx _]. destruct (Z.le_gt_cases 0 z) as [H|H]; [assumption|].
  rewrite Z.pow_neg_r in Hx by lia. lia.
Qed.

Lemma from_tms_in_range (x y z : Z) :
  in_range x y z -> from_tms x y z = Ok (mkTile x y z).
Proof.
  intros R. pose proof (in_range_zoom_nonneg _ _ _ R) as Hz.
  destruct R as [Hx Hy]. unfold from_tms.
  pose proof int_too_large_pos as Hp.
  replace (z <=? - int_too_large) with false by (symmetry; apply Z.leb_gt; lia).
  assert (Ex : (0 <=? x) && (x <=? 2 ^ z - 1) = true)
    by (apply andb_true_intro; split; apply Z.leb_le; lia).
  assert (Ey : (0 <=? y) && (y <=? 2 ^ z - 1) = true)
    by (apply andb_true_intro; split; apply Z.leb_le; lia).
  cbv zeta. rewrite Ex, Ey. reflexivity.
Qed.

Lemma from_tms_overflow (x y z : Z) :
  z <= - int_too_large -> from_tms x y z = Raise OverflowError.
Proof.
  intros Hz. unfold from_tms.
  replace (z <=? - int_too_large) with true by (symmetry; now apply Z.leb_le).
  reflexivity.
Qed.

Lemma from_tms_out_of_range (x y z : Z) :
  - int_too_large < z -> ~ in_range x y z ->
  from_tms x y z = Raise AssertionError.
Proof.
  intros Hz Hn. unfold from_tms.
  replace (z <=? - int_too_large) with false by (symmetry; now apply Z.leb_gt).
  cbv zeta.
  destruct ((0 <=? x) && (x <=? 2 ^ z - 1)) eqn:Ex; [|reflexivity].
  destruct ((0 <=? y) && (y <=? 2 ^ z - 1)) eqn:Ey; [|reflexivity].
  exfalso. apply Hn.
  apply andb_prop in Ex as [Ex1 Ex2]. apply andb_prop in Ey as [Ey1 Ey2].
  apply Z.leb_le in Ex1, Ex2, Ey1, Ey2. split; lia.
Qed.

Lemma from_tms_Ok_inv (x y z : Z) (t : Tile) :
  from_tms x y z = Ok t -> t = mkTile x y z /\ in_range x y z.
Proof.
  intros E. unfold from_tms in E.
  destruct (z <=? - int_too_large); [discriminate E|]. cbv zeta in E.
  destruct ((0 <=? x) && (x <=? 2 ^ z - 1)) eqn:Ex; [|discriminate].
  destruct ((0 <=? y) && (y <=? 2 ^ z - 1)) eqn:Ey; [|discriminate].
  simpl in E. injection E as <-.
  apply andb_prop in Ex as [Ex1 Ex2]. apply andb_prop in Ey as [Ey1 Ey2].
  apply Z.leb_le in Ex1, Ex2, Ey1, Ey2. split; [reflexivity | split; lia].
Qed.

Lemma in_range_child (t : Tile) (dx dy : Z) :
  in_range (tms_x t) (tms_y t) (zoom t) ->
  0 <= dx <= 1 -> 0 <= dy <= 1 ->
  in_range (tms_x t * 2 + dx) (tms_y t * 2 + dy) (zoom t + 1).
Proof.
  intros R Hdx Hdy. pose proof (in_range_zoom_nonneg _ _ _ R) as Hz.
  destruct R as [Hx Hy]. unfold in_range.
  change (zoom t + 1) with (Z.succ (zoom t)).
  rewrite Z.pow_succ_r by assumption. lia.
Qed.

Lemma quadrant_tiles_in_range (t : Tile) :
  in_range (tms_x t) (tms_y t) (zoom t) ->
  _get_quadrant_tiles t
  = Ok [child t 0 0; child t 0 1; child t 1 0; child t 1 1].
Proof.
  intros R. unfold _get_quadrant_tiles, tms, child. cbn [fst snd].
  pose proof (in_range_child t 0 0 R ltac:(lia) ltac:(lia)) as R00.
  pose proof (in_range_child t 0 1 R ltac:(lia) ltac:(lia)) as R01.
  pose proof (in_range_child t 1 0 R ltac:(lia) ltac:(lia)) as R10.
  pose proof (in_range_child t 1 1 R ltac:(lia) ltac:(lia)) as R11.
  rewrite !Z.add_0_r in *.
  rewrite (from_tms_in_range _ _ _ R00); cbn [bind].
  rewrite (from_tms_in_range _ _ _ R01); cbn [bind].
  rewrite (from_tms_in_range _ _ _ R10); cbn [bind].
  rewrite (from_tms_in_range _ _ _ R11); cbn [bind].
  reflexivity.
Qed.

(** Whenever [_get_quadrant_tiles] returns, it returns the four children,
    whatever the tile. *)
Lemma quadrant_tiles_Ok_inv (t : Tile) (children : list Tile) :
  _get_quadrant_tiles t = Ok children ->
  children = [child t 0 0; child t 0 1; child t 1 0; child t 1 1].
Proof.
  unfold _get_quadrant_tiles, tms, child. cbn [fst snd]. intros E.
  apply bind_Ok_inv in E as (t1 & E1 & E).
  apply bind_Ok_inv in E as (t2 & E2 & E).
  apply bind_Ok_inv in E as (t3 & E3 & E).
  apply bind_Ok_inv in E as (t4 & E4 & E).
  apply from_tms_Ok_inv in E1 as [-> _], E2 as [-> _], E3 as [-> _], E4 as [-> _].
  injection E as <-. rewrite !Z.add_0_r. reflexivity.
Qed.

(** ** Strings: [str], [str.format], [split], [int] *)

Lemma append_assoc (a b c : string) : ((a ++ b) ++ c = a ++ (b ++ c))%string.
Proof. induction a as [|x a IH]; simpl; [reflexivity | now rewrite IH]. Qed.

Lemma format_field_xyz (x y z : Z) :
  format_field "x" (dict_xyz x y z) = Ok (str_int x)
  /\ format_field "y" (dict_xyz x y z) = Ok (str_int y)
  /\ format_field "z" (dict_xyz x y z) = Ok (str_int z).
Proof. repeat split. Qed.

(** The default format never raises, and gives [zoom-x-y]. *)
Lemma str_format_default (x y z : Z) :
  str_format default_format (dict_xyz x y z)
  = Ok (str_int z ++ "-" ++ str_int x ++ "-" ++ str_int y)%string.
Proof.
  unfold str_format, default_format.
  cbn -[str_int]. rewrite !append_assoc. reflexivity.
Qed.

Lemma serialize_tile_ind (t : Tile) : serialize t = Some (tile_ind t).
Proof. unfold serialize. rewrite str_format_default. reflexivity. Qed.

Lemma uint_digits_no_dash (d : Decimal.uint) :
  mem_char "-" (NilEmpty.string_of_uint d) = false.
Proof. induction d; simpl; auto. Qed.

Lemma str_int_no_dash (n : Z) : 0 <= n -> mem_char "-" (str_int n) = false.
Proof.
  intros Hn. destruct n as [|p|p]; [reflexivity | | lia].
  unfold str_int, Z.to_int, NilZero.string_of_int, NilZero.string_of_uint.
  destruct (Pos.to_uint p); try apply uint_digits_no_dash. reflexivity.
Qed.

Lemma split_no_sep (sep : ascii) (s : string) :
  mem_char sep s = false -> split sep s = [s].
Proof.
  induction s as [|c s IH]; simpl; [reflexivity|].
  intros H. apply orb_false_elim in H as [Hc Hs].
  rewrite Hc, (IH Hs). reflexivity.
Qed.

Lemma split_app (sep : ascii) (s1 s2 : string) :
  mem_char sep s1 = false ->
  split sep (s1 ++ String sep s2) = s1 :: split sep s2.
Proof.
  induction s1 as [|c s1 IH]; simpl.
  - intros _. rewrite Ascii.eqb_refl. reflexivity.
  - intros H. apply orb_false_elim in H as [Hc Hs].
    rewrite Hc, (IH Hs). reflexivity.
Qed.

Lemma py_int_str_int (n : Z) : py_int (str_int n) = Ok n.
Proof.
  unfold py_int, str_int. rewrite NilZero.isi.
  - rewrite DecimalZ.of_to. reflexivity.
  - destruct n; simpl; try discriminate.
    intros [= E]. now apply DecimalPos.Unsigned.to_uint_nonnil in E.
  - destruct n; simpl; try discriminate.
    intros [= E]. now apply DecimalPos.Unsigned.to_uint_nonnil in E.
Qed.

(** Splitting an identifier on ['-'] gives back its three fields, when
    none of them is negative. *)
Lemma split_tile_ind (t : Tile) :
  0 <= zoom t -> 0 <= tms_x t -> 0 <= tms_y t ->
  split "-" (tile_ind t) = [str_int (zoom t); str_int (tms_x t); str_int (tms_y t)].
Proof.
  intros Hz Hx Hy. unfold tile_ind.
  cbn [String.append].
  rewrite split_app by now apply str_int_no_dash.
  rewrite split_app by now apply str_int_no_dash.
  rewrite split_no_sep by now apply str_int_no_dash.
  reflexivity.
Qed.

Lemma parse_tile_ind (t : Tile) :
  0 <= zoom t -> 0 <= tms_x t -> 0 <= tms_y t ->
  mapM py_int (split "-" (tile_ind t)) = Ok [zoom t; tms_x t; tms_y t].
Proof.
  intros Hz Hx Hy. rewrite split_tile_ind by assumption.
  simpl. rewrite !py_int_str_int. reflexivity.
Qed.

(** On tiles without a negative field the identifier determines the
    tile. *)
Lemma tile_ind_inj (t u : Tile) :
  0 <= zoom t -> 0 <= tms_x t -> 0 <= tms_y t ->
  0 <= zoom u -> 0 <= tms_x u -> 0 <= tms_y u ->
  tile_ind t = tile_ind u -> t = u.
Proof.
  intros Hz Hx Hy Hz' Hx' Hy' E.
  pose proof (parse_tile_ind t Hz Hx Hy) as Pt.
  pose proof (parse_tile_ind u Hz' Hx' Hy') as Pu.
  rewrite E, Pu in Pt. injection Pt as Ez Ex Ey.
  destruct t, u; simpl in *; congruence.
Qed.

(** ** The depth-first loop *)

Lemma put_all_four (stack : LifoQueue) (a b c d : Tile) :
  put_all stack [a; b; c; d] = d :: c :: b :: a :: stack.
Proof. reflexivity. Qed.

Lemma while_loop_nil (fuel : nat) (max_zoom : Z) (fmt : string) (desired : list string) :
  while_loop fuel max_zoom fmt [] desired = Some (Ok desired).
Proof. destruct fuel; reflexivity. Qed.

(** More fuel never changes an outcome already reached. *)
Lemma while_loop_mono (max_zoom : Z) (fmt : string) (fuel : nat) :
  forall (fuel' : nat) (stack : LifoQueue) (desired : list string) r,
    while_loop fuel max_zoom fmt stack desired = Some r ->
    (fuel <= fuel')%nat ->
    while_loop fuel' max_zoom fmt stack desired = Some r.
Proof.
  induction fuel as [|n IH]; intros fuel' stack desired r E L.
  - destruct stack as [|t st]; [|discriminate E].
    rewrite while_loop_nil. exact E.
  - destruct stack as [|t st]; [rewrite while_loop_nil; exact E|].
    destruct fuel' as [|m]; [lia|].
    cbn [while_loop] in *.
    destruct (zoom t >=? max_zoom).
    + destruct (str_format fmt _); [|exact E]. apply IH; [exact E | lia].
    + destruct (_get_quadrant_tiles t); [|exact E]. apply IH; [exact E | lia].
Qed.

(** Below a tile [d] zooms above [max_zoom] the loop spends
    [subtree_size d] iterations, leaves the rest of the stack as it was
    and appends the identifiers of [leaves d t]. *)
Lemma while_loop_leaves (max_zoom : Z) (d : nat) :
  forall (t : Tile) (stack : LifoQueue) (desired : list string) (fuel : nat),
    in_range (tms_x t) (tms_y t) (zoom t) ->
    max_zoom = zoom t + Z.of_nat d ->
    while_loop (subtree_size d + fuel) max_zoom default_format (t :: stack) desired
    = while_loop fuel max_zoom default_format stack
                 (desired ++ map tile_ind (leaves d t)).
Proof.
  induction d as [|d IH]; intros t stack desired fuel R E.
  - change (subtree_size 0 + fuel)%nat with (S fuel). cbn [while_loop].
    replace (zoom t >=? max_zoom) with true by (symmetry; apply Z.geb_le; lia).
    unfold tms; cbn [fst snd]. rewrite str_format_default. reflexivity.
  - replace (subtree_size (S d) + fuel)%nat
      with (S (subtree_size d + (subtree_size d
                + (subtree_size d + (subtree_size d + fuel)))))%nat
      by (cbn [subtree_size]; lia).
    cbn [while_loop].
    replace (zoom t >=? max_zoom) with false
      by (symmetry; rewrite Z.geb_leb; apply Z.leb_gt; lia).
    rewrite (quadrant_tiles_in_range t R), put_all_four.
    assert (Ec : forall dx dy, max_zoom = zoom (child t dx dy) + Z.of_nat d)
      by (intros; cbn [child zoom]; lia).
    assert (Rc : forall dx dy, 0 <= dx <= 1 -> 0 <= dy <= 1 ->
                 in_range (tms_x (child t dx dy)) (tms_y (child t dx dy))
                          (zoom (child t dx dy)))
      by (intros; cbn [child tms_x tms_y zoom]; now apply in_range_child).
    rewrite (IH (child t 1 1)) by (auto; apply Rc; lia).
    rewrite (IH (child t 1 0)) by (auto; apply Rc; lia).
    rewrite (IH (child t 0 1)) by (auto; apply Rc; lia).
    rewrite (IH (child t 0 0)) by (auto; apply Rc; lia).
    cbn [leaves]. rewrite !map_app, <- !app_assoc. reflexivity.
Qed.

(** The loop ends on every stack, whatever the format: each iteration
    lowers [work] by one, or raises. *)
Lemma while_loop_terminates (max_zoom : Z) (fmt : string) (fuel : nat) :
  forall (stack : LifoQueue) (desired : list string),
    (work max_zoom stack <= fuel)%nat ->
    exists r, while_loop fuel max_zoom fmt stack desired = Some r.
Proof.
  induction fuel as [|n IH]; intros stack desired W.
  - destruct stack as [|t st]; [eexists; reflexivity|].
    cbn [work fold_right] in W.
    destruct (Z.to_nat (max_zoom - zoom t)); cbn [subtree_size] in W; lia.
  - destruct stack as [|t st]; [eexists; reflexivity|].
    cbn [while_loop]. cbn [work fold_right] in W. fold (work max_zoom st) in W.
    destruct (zoom t >=? max_zoom) eqn:Ez.
    + destruct (str_format fmt _); [|eexists; reflexivity].
      apply IH.
      destruct (Z.to_nat (max_zoom - zoom t)); cbn [subtree_size] in W; lia.
    + destruct (_get_quadrant_tiles t) as [children|e] eqn:Eq;
        [|eexists; reflexivity].
      apply quadrant_tiles_Ok_inv in Eq as ->. rewrite put_all_four.
      apply IH. cbn [work fold_right child zoom]. fold (work max_zoom st).
      rewrite Z.geb_leb in Ez. apply Z.leb_gt in Ez.
      replace (Z.to_nat (max_zoom - zoom t))
        with (S (Z.to_nat (max_zoom - (zoom t + 1)))) in W by lia.
      cbn [subtree_size] in W. lia.
Qed.

(** ** The leaves of a tile *)

Lemma leaves_length (d : nat) : forall t, List.length (leaves d t) = (4 ^ d)%nat.
Proof.
  induction d as [|d IH]; intros t; [reflexivity|].
  cbn [leaves]. rewrite !List.length_app, !IH. cbn [Nat.pow]. lia.
Qed.

Lemma leaves_spec (d : nat) :
  forall t u, In u (leaves d t) ->
    zoom u = zoom t + Z.of_nat d
    /\ tms_x t * 2 ^ Z.of_nat d <= tms_x u <= (tms_x t + 1) * 2 ^ Z.of_nat d - 1
    /\ tms_y t * 2 ^ Z.of_nat d <= tms_y u <= (tms_y t + 1) * 2 ^ Z.of_nat d - 1.
Proof.
  induction d as [|d IH]; intros t u Hin.
  - destruct Hin as [<-|[]]. cbn. lia.
  - cbn [leaves] in Hin. rewrite !in_app_iff in Hin.
    rewrite Nat2Z.inj_succ, Z.pow_succ_r by lia.
    assert (P : 0 < 2 ^ Z.of_nat d) by (apply Z.pow_pos_nonneg; lia).
    destruct Hin as [H|[H|[H|H]]]; apply IH in H; cbn [child tms_x tms_y zoom] in H;
      destruct H as (Hz & Hx & Hy); (split; [lia | split; nia]).
Qed.

Lemma leaves_children_disjoint (d : nat) (t u : Tile) (dx dy dx' dy' : Z) :
  0 <= dx <= 1 -> 0 <= dy <= 1 -> 0 <= dx' <= 1 -> 0 <= dy' <= 1 ->
  (dx, dy) <> (dx', dy') ->
  In u (leaves d (child t dx dy)) -> ~ In u (leaves d (child t dx' dy')).
Proof.
  intros Hdx Hdy Hdx' Hdy' Ne H H'.
  apply leaves_spec in H as (_ & Hx & Hy), H' as (_ & Hx' & Hy').
  cbn [child tms_x tms_y] in *.
  assert (P : 0 < 2 ^ Z.of_nat d) by (apply Z.pow_pos_nonneg; lia).
  assert (dx = dx') by nia. assert (dy = dy') by nia. congruence.
Qed.

Lemma leaves_NoDup (d : nat) : forall t, NoDup (leaves d t).
Proof.
  induction d as [|d IH]; intros t.
  - cbn. constructor; [intros [] | constructor].
  - cbn [leaves].
    repeat (apply NoDup_app; [apply IH | | ]); try apply IH;
      intros u Hu; rewrite ?in_app_iff; intros Hv;
      repeat (destruct Hv as [Hv|Hv]);
      (revert Hv; eapply leaves_children_disjoint; [..|exact Hu]; (lia || congruence)).
Qed.

Lemma leaves_complete (d : nat) :
  forall t u,
    zoom u = zoom t + Z.of_nat d ->
    tms_x t * 2 ^ Z.of_nat d <= tms_x u <= (tms_x t + 1) * 2 ^ Z.of_nat d - 1 ->
    tms_y t * 2 ^ Z.of_nat d <= tms_y u <= (tms_y t + 1) * 2 ^ Z.of_nat d - 1 ->
    In u (leaves d t).
Proof.
  induction d as [|d IH]; intros t u Ez Hx Hy.
  - left. cbn in Ez, Hx, Hy. destruct t, u; cbn in *. f_equal; lia.
  - rewrite Nat2Z.inj_succ, Z.pow_succ_r in Hx, Hy by lia.
    assert (P : 0 < 2 ^ Z.of_nat d) by (apply Z.pow_pos_nonneg; lia).
    cbn [leaves]. rewrite !in_app_iff.
    destruct (Z.lt_ge_cases (tms_x u) ((tms_x t * 2 + 1) * 2 ^ Z.of_nat d)) as [Lx|Gx];
      destruct (Z.lt_ge_cases (tms_y u) ((tms_y t * 2 + 1) * 2 ^ Z.of_nat d)) as [Ly|Gy].
    + right; right; right. apply IH; cbn [child tms_x tms_y zoom]; [lia | nia | nia].
    + right; right; left. apply IH; cbn [child tms_x tms_y zoom]; [lia | nia | nia].
    + right; left. apply IH; cbn [child tms_x tms_y zoom]; [lia | nia | nia].
    + left. apply IH; cbn [child tms_x tms_y zoom]; [lia | nia | nia].
Qed.

(** Fewer than [subtree_size d] iterations do not finish the subtree of
    a tile [d] zooms above [max_zoom]. *)
Lemma while_loop_short (max_zoom : Z) (d : nat) :
  forall (t : Tile) (stack : LifoQueue) (desired : list string) (n : nat),
    in_range (tms_x t) (tms_y t) (zoom t) ->
    max_zoom = zoom t + Z.of_nat d ->
    (n < subtree_size d)%nat ->
    while_loop n max_zoom default_format (t :: stack) desired = None.
Proof.
  induction d as [|d IH]; intros t stack desired n R E L.
  - cbn [subtree_size] in L. destruct n; [reflexivity | lia].
  - destruct n as [|m]; [reflexivity|]. cbn [while_loop].
    replace (zoom t >=? max_zoom) with false
      by (symmetry; rewrite Z.geb_leb; apply Z.leb_gt; lia).
    rewrite (quadrant_tiles_in_range t R), put_all_four.
    cbn [subtree_size] in L.
    assert (Ec : forall dx dy, max_zoom = zoom (child t dx dy) + Z.of_nat d)
      by (intros; cbn [child zoom]; lia).
    assert (Rc : forall dx dy, 0 <= dx <= 1 -> 0 <= dy <= 1 ->
                 in_range (tms_x (child t dx dy)) (tms_y (child t dx dy))
                          (zoom (child t dx dy)))
      by (intros; cbn [child tms_x tms_y zoom]; now apply in_range_child).
    destruct (Nat.lt_ge_cases m (subtree_size d)) as [L1|G1];
      [apply IH; auto; apply Rc; lia|].
    replace m with (subtree_size d + (m - subtree_size d))%nat by lia.
    rewrite while_loop_leaves by (auto; apply Rc; lia).
    destruct (Nat.lt_ge_cases (m - subtree_size d) (subtree_size d)) as [L2|G2];
      [apply IH; auto; apply Rc; lia|].
    replace (m - subtree_size d)%nat
      with (subtree_size d + (m - 2 * subtree_size d))%nat by lia.
    rewrite while_loop_leaves by (auto; apply Rc; lia).
    destruct (Nat.lt_ge_cases (m - 2 * subtree_size d) (subtree_size d)) as [L3|G3];
      [apply IH; auto; apply Rc; lia|].
    replace (m - 2 * subtree_size d)%nat
      with (subtree_size d + (m - 3 * subtree_size d))%nat by lia.
    rewrite while_loop_leaves by (auto; apply Rc; lia).
    apply IH; auto; [apply Rc; lia | lia].
Qed.

(** One step of [format_go]. *)
Lemma format_go_cons (c : ascii) (s' : string) (field : option string)
  (kw : pydict) (out : string) :
  format_go (String c s') field kw out
  = match field with
    | None =>
        if (c =? "{")%char then
          match s' with
          | EmptyString => Raise ValueError
          | String c' s'' =>
              if (c' =? "{")%char then format_go s'' None kw (out ++ "{")%string
              else format_go s' (Some "") kw out
          end
        else if (c =? "}")%char then
          match s' with
          | EmptyString => Raise ValueError
          | String c' s'' =>
              if (c' =? "}")%char then format_go s'' None kw (out ++ "}")%string
              else Raise ValueError
          end
        else format_go s' None kw (out ++ String c "")%string
    | Some name =>
        if (c =? "}")%char then
          match format_field name kw with
          | Ok v => format_go s' None kw (out ++ v)%string
          | Raise e => Raise e
          end
        else if (c =? "{")%char then Raise ValueError
        else if field_special c then Raise NotModelled
        else format_go s' (Some (name ++ String c "")%string) kw out
    end.
Proof. reflexivity. Qed.

Lemma dict_get_no_assertion (kw : pydict) (name : string) :
  dict_get kw name <> Raise AssertionError
  /\ dict_get kw name <> Raise OverflowError.
Proof.
  induction kw as [|[k v] kw IH]; cbn [dict_get]; [split; discriminate|].
  destruct (k =? name)%string; [split; discriminate | exact IH].
Qed.

Lemma format_field_no_assertion (name : string) (kw : pydict) :
  format_field name kw <> Raise AssertionError
  /\ format_field name kw <> Raise OverflowError.
Proof.
  unfold format_field.
  destruct (all_digits name);
    [destruct (String.length name <=? 9)%nat; split; discriminate|].
  destruct (dict_get kw name) as [v|e] eqn:Ev; cbn [bind]; [split; discriminate|].
  destruct (dict_get_no_assertion kw name) as [Ha Ho]. rewrite Ev in Ha, Ho.
  split; congruence.
Qed.

(** Formatting raises neither [AssertionError] nor [OverflowError]. *)
Lemma format_go_no_assertion (kw : pydict) (s : string) :
  (forall field out,
      format_go s field kw out <> Raise AssertionError
      /\ format_go s field kw out <> Raise OverflowError)
  /\ (forall c field out,
        format_go (String c s) field kw out <> Raise AssertionError
        /\ format_go (String c s) field kw out <> Raise OverflowError).
Proof.
  induction s as [|c' s [IH1 IH2]].
  - assert (B : forall field out,
                format_go "" field kw out <> Raise AssertionError
                /\ format_go "" field kw out <> Raise OverflowError)
      by (intros [name|] out; split; discriminate).
    split; [exact B|].
    intros c [name|] out; rewrite format_go_cons.
    + destruct (c =? "}")%char.
      * destruct (format_field name kw) as [v|e] eqn:Ev; [apply B|].
        destruct (format_field_no_assertion name kw) as [Ha Ho].
        rewrite Ev in Ha, Ho. split; congruence.
      * destruct (c =? "{")%char; [split; discriminate|].
        destruct (field_special c); [split; discriminate | apply B].
    + destruct (c =? "{")%char; [split; discriminate|].
      destruct (c =? "}")%char; [split; discriminate | apply B].
  - split; [exact (IH2 c')|].
    intros c [name|] out; rewrite format_go_cons.
    + destruct (c =? "}")%char.
      * destruct (format_field name kw) as [v|e] eqn:Ev; [apply IH2|].
        destruct (format_field_no_assertion name kw) as [Ha Ho].
        rewrite Ev in Ha, Ho. split; congruence.
      * destruct (c =? "{")%char; [split; discriminate|].
        destruct (field_special c); [split; discriminate | apply IH2].
    + destruct (c =? "{")%char.
      * destruct (c' =? "{")%char; [apply IH1 | apply IH2].
      * destruct (c =? "}")%char; [|apply IH2].
        destruct (c' =? "}")%char; [apply IH1 | split; discriminate].
Qed.

(** On a stack of tiles the constructor accepts, the loop raises neither
    [AssertionError] nor [OverflowError]: the children of such a tile are
    accepted too. *)
Lemma while_loop_no_assertion (max_zoom : Z) (fmt : string) (fuel : nat) :
  forall (stack : LifoQueue) (desired : list string),
    Forall (fun t => in_range (tms_x t) (tms_y t) (zoom t)) stack ->
    while_loop fuel max_zoom fmt stack desired <> Some (Raise AssertionError)
    /\ while_loop fuel max_zoom fmt stack desired <> Some (Raise OverflowError).
Proof.
  induction fuel as [|n IH]; intros stack desired F.
  - destruct stack; split; discriminate.
  - destruct stack as [|t st]; [split; discriminate|]. cbn [while_loop].
    apply Forall_cons_iff in F as [R F].
    destruct (zoom t >=? max_zoom).
    + destruct (str_format fmt _) as [s|e] eqn:Es; [now apply IH|].
      unfold str_format in Es.
      destruct (proj1 (format_go_no_assertion
                         (dict_xyz (fst (tms t)) (snd (tms t)) (zoom t)) fmt)
                      None "") as [Ha Ho].
      rewrite Es in Ha, Ho. split; congruence.
    + rewrite (quadrant_tiles_in_range t R), put_all_four. apply IH.
      repeat (apply Forall_cons;
              [cbn [child tms_x tms_y zoom]; apply in_range_child; auto; lia|]).
      exact F.
Qed.

(** ** [get_tile_pyramid] *)

Lemma get_tile_pyramid_describes (fuel : nat) (top : pydict) (t : Tile)
  (max_zoom : Z) (fmt : string) :
  describes top t ->
  get_tile_pyramid fuel top max_zoom fmt
  = match from_tms (tms_x t) (tms_y t) (zoom t) with
    | Ok t' => while_loop fuel max_zoom fmt [t'] []
    | Raise e => Some (Raise e)
    end.
Proof.
  intros (Ex & Ey & Ez). unfold get_tile_pyramid.
  rewrite Ex, Ey, Ez. reflexivity.
Qed.

Lemma describes_dict_xyz (t : Tile) :
  describes (dict_xyz (tms_x t) (tms_y t) (zoom t)) t.
Proof. repeat split. Qed.

Lemma get_tile_pyramid_in_range (fuel : nat) (top : pydict) (t : Tile)
  (max_zoom : Z) (fmt : string) :
  describes top t -> in_range (tms_x t) (tms_y t) (zoom t) ->
  get_tile_pyramid fuel top max_zoom fmt = while_loop fuel max_zoom fmt [t] [].
Proof.
  intros D R. rewrite (get_tile_pyramid_describes _ _ t) by assumption.
  rewrite from_tms_in_range by assumption. destruct t; reflexivity.
Qed.

(** A tile already at or beyond [max_zoom] is emitted in the first
    iteration, and nothing else is. *)
Lemma get_tile_pyramid_no_expansion (fuel : nat) (top : pydict) (t : Tile)
  (max_zoom : Z) :
  describes top t -> in_range (tms_x t) (tms_y t) (zoom t) ->
  max_zoom <= zoom t ->
  get_tile_pyramid (S fuel) top max_zoom default_format = Some (Ok [tile_ind t]).
Proof.
  intros D R L. rewrite (get_tile_pyramid_in_range _ _ t) by assumption.
  cbn [while_loop].
  replace (zoom t >=? max_zoom) with true by (symmetry; apply Z.geb_le; lia).
  unfold tms; cbn [fst snd]. rewrite str_format_default.
  rewrite while_loop_nil. reflexivity.
Qed.

Lemma get_tile_pyramid_leaves (fuel : nat) (top : pydict) (t : Tile) (d : nat) :
  describes top t -> in_range (tms_x t) (tms_y t) (zoom t) ->
  get_tile_pyramid (subtree_size d + fuel) top (zoom t + Z.of_nat d) default_format
  = Some (Ok (map tile_ind (leaves d t))).
Proof.
  intros D R. rewrite (get_tile_pyramid_in_range _ _ t) by assumption.
  rewrite while_loop_leaves by auto. apply while_loop_nil.
Qed.

Lemma leaves_nonneg (d : nat) (t u : Tile) :
  in_range (tms_x t) (tms_y t) (zoom t) -> In u (leaves d t) ->
  0 <= zoom u /\ 0 <= tms_x u /\ 0 <= tms_y u.
Proof.
  intros R Hu. pose proof (in_range_zoom_nonneg _ _ _ R) as Hz.
  destruct R as [Hx Hy]. apply leaves_spec in Hu as (Ez & Hx' & Hy').
  assert (P : 0 < 2 ^ Z.of_nat d) by (apply Z.pow_pos_nonneg; lia).
  repeat split; nia.
Qed.

Lemma leaves_tile_ind_NoDup (d : nat) (t : Tile) :
  in_range (tms_x t) (tms_y t) (zoom t) -> NoDup (map tile_ind (leaves d t)).
Proof.
  intros R. apply Injective_map_NoDup_in; [|apply leaves_NoDup].
  intros u v Hu Hv E.
  apply (leaves_nonneg d t u R) in Hu as (? & ? & ?).
  apply (leaves_nonneg d t v R) in Hv as (? & ? & ?).
  now apply tile_ind_inj.
Qed.

(** The two tile tests of [src/test/test_utils.py]. *)

Example test_finding_child_tiles :
  exists children,
    _get_quadrant_tiles (mkTile 1412 3520 17) = Ok children
    /\ Permutation children [mkTile 2825 7041 18; mkTile 2825 7040 18;
                             mkTile 2824 7041 18; mkTile 2824 7040 18].
Proof.
  eexists; split; [vm_compute; reflexivity|].
  apply Permutation_rev.
Qed.

Example test_pyramid_of_child_indices :
  get_tile_pyramid 21 (dict_xyz 5 314 16) 18 default_format
  = Some (Ok ["18-23-1259"; "18-23-1258"; "18-22-1259"; "18-22-1258";
              "18-23-1257"; "18-23-1256"; "18-22-1257"; "18-22-1256";
              "18-21-1259"; "18-21-1258"; "18-20-1259"; "18-20-1258";
              "18-21-1257"; "18-21-1256"; "18-20-1257"; "18-20-1256"]).
Proof. vm_compute. reflexivity. Qed.

(** ** The claims on tiles *)

(** Proves a membership [In a [b1; ...; bn]] whose right disjunct is an
    equality that [lia] settles field by field. *)
Ltac pick_disjunct :=
  first [ solve [left; f_equal; lia] | right; pick_disjunct ].

(** C1.  For a valid top tile and [max_zoom >= zoom], [get_tile_pyramid]
    returns (with [subtree_size d] iterations or more, [d] being the zoom
    difference) a list of exactly [4 ^ (max_zoom - zoom)] identifiers,
    without duplicates, each of which is the identifier of a tile at zoom
    [max_zoom] whose [x] lies in [[x0 * 2^d, (x0 + 1) * 2^d - 1]] and
    likewise for [y]; and no such tile is missing from the list. *)
Theorem get_tile_pyramid_leaf_set (top : pydict) (t : Tile) (max_zoom : Z) :
  describes top t -> valid_tile t -> zoom t <= max_zoom ->
  exists tile_inds : list string,
    (exists fuel, forall fuel', (fuel <= fuel')%nat ->
       get_tile_pyramid fuel' top max_zoom default_format = Some (Ok tile_inds))
    /\ Z.of_nat (List.length tile_inds) = 4 ^ (max_zoom - zoom t)
    /\ NoDup tile_inds
    /\ Forall (fun s => exists u,
                 serialize u = Some s
                 /\ zoom u = max_zoom
                 /\ tms_x t * 2 ^ (max_zoom - zoom t) <= tms_x u
                    <= (tms_x t + 1) * 2 ^ (max_zoom - zoom t) - 1
                 /\ tms_y t * 2 ^ (max_zoom - zoom t) <= tms_y u
                    <= (tms_y t + 1) * 2 ^ (max_zoom - zoom t) - 1)
              tile_inds
    /\ (forall u,
          zoom u = max_zoom ->
          tms_x t * 2 ^ (max_zoom - zoom t) <= tms_x u
            <= (tms_x t + 1) * 2 ^ (max_zoom - zoom t) - 1 ->
          tms_y t * 2 ^ (max_zoom - zoom t) <= tms_y u
            <= (tms_y t + 1) * 2 ^ (max_zoom - zoom t) - 1 ->
          exists s, serialize u = Some s /\ In s tile_inds).
Proof.
  intros D [_ R] L.
  set (d := Z.to_nat (max_zoom - zoom t)).
  assert (Ed : max_zoom - zoom t = Z.of_nat d) by (unfold d; lia).
  assert (Em : max_zoom = zoom t + Z.of_nat d) by lia.
  exists (map tile_ind (leaves d t)).
  split; [|split; [|split; [|split]]].
  - exists (subtree_size d). intros fuel' Hf.
    replace fuel' with (subtree_size d + (fuel' - subtree_size d))%nat by lia.
    rewrite Em. now apply get_tile_pyramid_leaves.
  - rewrite length_map, leaves_length, Ed, Nat2Z.inj_pow. reflexivity.
  - now apply leaves_tile_ind_NoDup.
  - apply Forall_forall. intros s Hs.
    apply in_map_iff in Hs as (u & <- & Hu). exists u.
    apply leaves_spec in Hu as (Ez & Hx & Hy). rewrite Ed.
    split; [apply serialize_tile_ind|]. split; [lia|]. split; assumption.
  - intros u Ez Hx Hy. exists (tile_ind u).
    split; [apply serialize_tile_ind|].
    apply in_map. rewrite Ed in Hx, Hy. apply leaves_complete; [lia | assumption..].
Qed.

Lemma get_tile_pyramid_leaf_set_witness :
  exists tile_inds : list string,
    (exists fuel, forall fuel', (fuel <= fuel')%nat ->
       get_tile_pyramid fuel' (dict_xyz 5 314 16) 18 default_format
       = Some (Ok tile_inds))
    /\ Z.of_nat (List.length tile_inds) = 4 ^ (18 - 16)
    /\ NoDup tile_inds
    /\ Forall (fun s => exists u,
                 serialize u = Some s
                 /\ zoom u = 18
                 /\ 5 * 2 ^ (18 - 16) <= tms_x u <= (5 + 1) * 2 ^ (18 - 16) - 1
                 /\ 314 * 2 ^ (18 - 16) <= tms_y u
                    <= (314 + 1) * 2 ^ (18 - 16) - 1)
              tile_inds
    /\ (forall u,
          zoom u = 18 ->
          5 * 2 ^ (18 - 16) <= tms_x u <= (5 + 1) * 2 ^ (18 - 16) - 1 ->
          314 * 2 ^ (18 - 16) <= tms_y u <= (314 + 1) * 2 ^ (18 - 16) - 1 ->
          exists s, serialize u = Some s /\ In s tile_inds).
Proof.
  apply (get_tile_pyramid_leaf_set (dict_xyz 5 314 16) (mkTile 5 314 16) 18).
  - repeat split.
  - unfold valid_tile, in_range; cbn; lia.
  - cbn; lia.
Defined.

(** C2.  For a valid tile [(x, y, z)], [_get_quadrant_tiles] returns four
    tiles, mutually distinct, all at zoom [z + 1], and a tile is among them
    exactly when its coordinates are one of [(2x, 2y)], [(2x, 2y+1)],
    [(2x+1, 2y)], [(2x+1, 2y+1)]; for [(1412, 3520, 17)] they are the four
    tiles of the test, up to order. *)
Theorem quadrant_tiles_four_children (t : Tile) :
  valid_tile t ->
  (exists children,
      _get_quadrant_tiles t = Ok children
      /\ List.length children = 4%nat
      /\ NoDup children
      /\ Forall (fun c => zoom c = zoom t + 1) children
      /\ forall c, In c children <->
           zoom c = zoom t + 1
           /\ In (tms c) [(2 * tms_x t, 2 * tms_y t);
                          (2 * tms_x t, 2 * tms_y t + 1);
                          (2 * tms_x t + 1, 2 * tms_y t);
                          (2 * tms_x t + 1, 2 * tms_y t + 1)])
  /\ (exists children,
         _get_quadrant_tiles (mkTile 1412 3520 17) = Ok children
         /\ Permutation children [mkTile 2825 7041 18; mkTile 2825 7040 18;
                                  mkTile 2824 7041 18; mkTile 2824 7040 18]).
Proof.
  intros [_ R]. split; [|exact test_finding_child_tiles].
  eexists. split; [apply (quadrant_tiles_in_range t R)|].
  split; [reflexivity|]. split; [|split].
  - repeat constructor; cbn [In]; unfold child; intros H;
      repeat (destruct H as [H|H]); try injection H; try lia; contradiction.
  - repeat constructor.
  - intros [cx cy cz]. unfold child, tms. cbn [In tms_x tms_y zoom]. split.
    + intros H. repeat (destruct H as [H|H]); try contradiction;
        injection H as <- <- <-; (split; [reflexivity|]); pick_disjunct.
    + intros [-> H]. repeat (destruct H as [H|H]); try contradiction;
        apply pair_equal_spec in H as [<- <-]; pick_disjunct.
Qed.

Lemma quadrant_tiles_four_children_witness :
  (exists children,
      _get_quadrant_tiles (mkTile 1412 3520 17) = Ok children
      /\ List.length children = 4%nat
      /\ NoDup children
      /\ Forall (fun c => zoom c = 17 + 1) children
      /\ forall c, In c children <->
           zoom c = 17 + 1
           /\ In (tms c) [(2 * 1412, 2 * 3520); (2 * 1412, 2 * 3520 + 1);
                          (2 * 1412 + 1, 2 * 3520);
                          (2 * 1412 + 1, 2 * 3520 + 1)])
  /\ (exists children,
         _get_quadrant_tiles (mkTile 1412 3520 17) = Ok children
         /\ Permutation children [mkTile 2825 7041 18; mkTile 2825 7040 18;
                                  mkTile 2824 7041 18; mkTile 2824 7040 18]).
Proof.
  apply (quadrant_tiles_four_children (mkTile 1412 3520 17)).
  unfold valid_tile, in_range; cbn; lia.
Defined.

(** C3.  With [max_zoom] equal to the zoom of a valid top tile the result
    is the one-element list holding the identifier [zoom-x-y] of that
    tile; the first iteration of the loop emits it and empties the stack,
    so no tile is expanded, and before that iteration the loop has not
    ended. *)
Theorem get_tile_pyramid_same_zoom (top : pydict) (t : Tile) :
  describes top t -> valid_tile t ->
  get_tile_pyramid 0 top (zoom t) default_format = None
  /\ forall fuel, (1 <= fuel)%nat ->
       get_tile_pyramid fuel top (zoom t) default_format
       = Some (Ok [tile_ind t]).
Proof.
  intros D [_ R]. split.
  - rewrite (get_tile_pyramid_in_range _ _ t) by assumption. reflexivity.
  - intros [|fuel] Hf; [lia|].
    apply get_tile_pyramid_no_expansion; auto. lia.
Qed.

Lemma get_tile_pyramid_same_zoom_witness :
  get_tile_pyramid 0 (dict_xyz 1412 3520 17) 17 default_format = None
  /\ forall fuel, (1 <= fuel)%nat ->
       get_tile_pyramid fuel (dict_xyz 1412 3520 17) 17 default_format
       = Some (Ok ["17-1412-3520"]).
Proof.
  apply (get_tile_pyramid_same_zoom (dict_xyz 1412 3520 17) (mkTile 1412 3520 17)).
  - repeat split.
  - unfold valid_tile, in_range; cbn; lia.
Defined.

(** C7.  For a valid tile, formatting with ["{z}-{x}-{y}"] gives
    [zoom-x-y]; splitting that string on ['-'] and reading the three
    integers gives back [zoom, x, y] in this order, and the tile itself
    once rebuilt; two valid tiles with the same identifier are the same
    tile. *)
Theorem tile_ind_round_trip (t : Tile) :
  valid_tile t ->
  str_format default_format (dict_xyz (tms_x t) (tms_y t) (zoom t))
  = Ok (tile_ind t)
  /\ mapM py_int (split "-" (tile_ind t)) = Ok [zoom t; tms_x t; tms_y t]
  /\ tile_of_ind (tile_ind t) = Ok t
  /\ forall u, valid_tile u -> serialize u = serialize t -> u = t.
Proof.
  intros [Hz R]. pose proof R as [Hx Hy].
  assert (P : mapM py_int (split "-" (tile_ind t)) = Ok [zoom t; tms_x t; tms_y t])
    by (apply parse_tile_ind; lia).
  split; [apply str_format_default|]. split; [exact P|]. split.
  - unfold tile_of_ind. rewrite P. cbn [bind].
    rewrite from_tms_in_range by assumption. destruct t; reflexivity.
  - intros u [Hz' [Hx' Hy']] E. rewrite !serialize_tile_ind in E.
    injection E as E. apply tile_ind_inj; auto; lia.
Qed.

Lemma tile_ind_round_trip_witness :
  str_format default_format (dict_xyz 23 1259 18) = Ok (tile_ind (mkTile 23 1259 18))
  /\ mapM py_int (split "-" (tile_ind (mkTile 23 1259 18))) = Ok [18; 23; 1259]
  /\ tile_of_ind (tile_ind (mkTile 23 1259 18)) = Ok (mkTile 23 1259 18)
  /\ forall u, valid_tile u ->
       serialize u = serialize (mkTile 23 1259 18) -> u = mkTile 23 1259 18.
Proof.
  apply (tile_ind_round_trip (mkTile 23 1259 18)).
  unfold valid_tile, in_range; cbn; lia.
Defined.

(** C8.  For a valid top tile and [max_zoom >= zoom] the loop ends with an
    empty stack: after exactly [subtree_size d] iterations, [d] being the
    zoom difference, and not before.  The two facts behind it: the tiles
    [_get_quadrant_tiles] returns are one zoom above the tile they come
    from, and a tile at zoom [>= max_zoom] is emitted and taken off the
    stack without anything being pushed.  With another format the loop
    still ends, possibly by an exception of the formatting. *)
Theorem get_tile_pyramid_terminates (top : pydict) (t : Tile) (max_zoom : Z) :
  describes top t -> valid_tile t -> zoom t <= max_zoom ->
  let n := subtree_size (Z.to_nat (max_zoom - zoom t)) in
  (exists tile_inds,
      get_tile_pyramid n top max_zoom default_format = Some (Ok tile_inds))
  /\ (forall m, (m < n)%nat ->
        get_tile_pyramid m top max_zoom default_format = None)
  /\ (forall fmt, exists r, get_tile_pyramid n top max_zoom fmt = Some r)
  /\ (forall u children,
        _get_quadrant_tiles u = Ok children ->
        Forall (fun c => zoom u < zoom c) children)
  /\ (forall u stack desired fuel,
        max_zoom <= zoom u ->
        while_loop (S fuel) max_zoom default_format (u :: stack) desired
        = while_loop fuel max_zoom default_format stack (desired ++ [tile_ind u])).
Proof.
  intros D [_ R] L n.
  set (d := Z.to_nat (max_zoom - zoom t)) in n.
  assert (Em : max_zoom = zoom t + Z.of_nat d) by (unfold d; lia).
  split; [|split; [|split; [|split]]].
  - exists (map tile_ind (leaves d t)).
    replace n with (subtree_size d + 0)%nat by (unfold n; lia).
    rewrite Em. now apply get_tile_pyramid_leaves.
  - intros m Hm. rewrite (get_tile_pyramid_in_range _ _ t) by assumption.
    now apply (while_loop_short max_zoom d).
  - intros fmt. rewrite (get_tile_pyramid_in_range _ _ t) by assumption.
    apply while_loop_terminates. cbn [work fold_right]. fold d. unfold n. lia.
  - intros u children E. apply quadrant_tiles_Ok_inv in E as ->.
    repeat constructor; cbn [child zoom]; lia.
  - intros u stack desired fuel Hu. cbn [while_loop].
    replace (zoom u >=? max_zoom) with true by (symmetry; apply Z.geb_le; lia).
    unfold tms; cbn [fst snd]. rewrite str_format_default. reflexivity.
Qed.

Lemma get_tile_pyramid_terminates_witness :
  (exists tile_inds,
      get_tile_pyramid 21 (dict_xyz 5 314 16) 18 default_format
      = Some (Ok tile_inds))
  /\ (forall m, (m < 21)%nat ->
        get_tile_pyramid m (dict_xyz 5 314 16) 18 default_format = None).
Proof.
  pose proof (get_tile_pyramid_terminates (dict_xyz 5 314 16) (mkTile 5 314 16) 18)
    as H.
  cbv zeta in H.
  destruct H as (H1 & H2 & _).
  - repeat split.
  - unfold valid_tile, in_range; cbn; lia.
  - cbn; lia.
  - split; [exact H1 | exact H2].
Defined.

(** C9.  Two runs on the same input that both end give the same outcome,
    however many iterations each was allowed; when both return a list, the
    two lists are the same and so have the same members. *)
Theorem get_tile_pyramid_deterministic (top : pydict) (max_zoom : Z)
  (fmt : string) (fuel1 fuel2 : nat) (r1 r2 : result (list string)) :
  get_tile_pyramid fuel1 top max_zoom fmt = Some r1 ->
  get_tile_pyramid fuel2 top max_zoom fmt = Some r2 ->
  r1 = r2
  /\ forall l1 l2, r1 = Ok l1 -> r2 = Ok l2 -> forall s, In s l1 <-> In s l2.
Proof.
  intros E1 E2.
  assert (E : r1 = r2).
  { unfold get_tile_pyramid in E1, E2.
    destruct (bind (dict_get top "x") _) as [t0|e]; [|congruence].
    apply (while_loop_mono _ _ _ (Nat.max fuel1 fuel2)) in E1; [|lia].
    apply (while_loop_mono _ _ _ (Nat.max fuel1 fuel2)) in E2; [|lia].
    congruence. }
  split; [exact E|]. intros l1 l2 -> E'. rewrite E' in E.
  injection E as ->. reflexivity.
Qed.

Lemma get_tile_pyramid_deterministic_witness :
  Ok ["17-3-3"; "17-2-3"; "17-3-2"; "17-2-2"]
  = Ok ["17-3-3"; "17-2-3"; "17-3-2"; "17-2-2"]
  /\ forall l1 l2 : list string,
       Ok ["17-3-3"; "17-2-3"; "17-3-2"; "17-2-2"] = Ok l1 ->
       Ok ["17-3-3"; "17-2-3"; "17-3-2"; "17-2-2"] = Ok l2 ->
       forall s, In s l1 <-> In s l2.
Proof.
  apply (get_tile_pyramid_deterministic (dict_xyz 1 1 16) 17 "{z}-{y}-{x}" 5 9);
    vm_compute; reflexivity.
Defined.

(** C10.  When the zoom of the top tile is above [max_zoom] (and its
    [x], [y] are accepted by the tile constructor) the call does not
    raise: the leaf test [zoom >= max_zoom] holds in the first iteration
    and the result is the one-element list with the identifier [zoom-x-y]
    of the top tile. *)
Theorem get_tile_pyramid_zoom_above_max (top : pydict) (t : Tile) (max_zoom : Z) :
  describes top t -> in_range (tms_x t) (tms_y t) (zoom t) ->
  max_zoom < zoom t ->
  (zoom t >=? max_zoom) = true
  /\ forall fuel, (1 <= fuel)%nat ->
       get_tile_pyramid fuel top max_zoom default_format
       = Some (Ok [tile_ind t]).
Proof.
  intros D R L. split; [apply Z.geb_le; lia|].
  intros [|fuel] Hf; [lia|].
  apply get_tile_pyramid_no_expansion; auto. lia.
Qed.

Lemma get_tile_pyramid_zoom_above_max_witness :
  (16 >=? 15) = true
  /\ forall fuel, (1 <= fuel)%nat ->
       get_tile_pyramid fuel (dict_xyz 5 314 16) 15 default_format
       = Some (Ok ["16-5-314"]).
Proof.
  apply (get_tile_pyramid_zoom_above_max (dict_xyz 5 314 16) (mkTile 5 314 16) 15).
  - repeat split.
  - unfold in_range; cbn; lia.
  - cbn; lia.
Defined.

(** C4, as the code has it.  The only checks are those of the tile
    constructor, made before the loop starts.  When the zoom of the top
    tile is at or below [- int_too_large], [2 ** zoom] raises
    [OverflowError].  Above that, when [x] or [y] is outside
    [[0, 2^zoom - 1]] (always so for a negative zoom) the call raises
    [AssertionError], whatever [max_zoom] and the format.  When they are
    inside, the call never raises [AssertionError], whatever the zoom,
    [max_zoom] and the format, nor [OverflowError] with a format of plain
    fields; with [max_zoom <= zoom] and the default format it returns the
    one-element list with the identifier [zoom-x-y] of the top tile. *)
Theorem get_tile_pyramid_checks (top : pydict) (t : Tile) (max_zoom : Z) :
  describes top t ->
  (zoom t <= - int_too_large ->
   forall fmt fuel,
     get_tile_pyramid fuel top max_zoom fmt = Some (Raise OverflowError))
  /\ (- int_too_large < zoom t ->
      ~ in_range (tms_x t) (tms_y t) (zoom t) ->
      forall fmt fuel,
        get_tile_pyramid fuel top max_zoom fmt = Some (Raise AssertionError))
  /\ (in_range (tms_x t) (tms_y t) (zoom t) ->
      (forall fmt fuel,
         get_tile_pyramid fuel top max_zoom fmt <> Some (Raise AssertionError))
      /\ (forall fmt, format_modelled fmt -> forall fuel,
            get_tile_pyramid fuel top max_zoom fmt
            <> Some (Raise OverflowError)))
  /\ (in_range (tms_x t) (tms_y t) (zoom t) -> max_zoom <= zoom t ->
      forall fuel, (1 <= fuel)%nat ->
        get_tile_pyramid fuel top max_zoom default_format
        = Some (Ok [tile_ind t])).
Proof.
  intros D. split; [|split; [|split]].
  - intros Hz fmt fuel. rewrite (get_tile_pyramid_describes _ _ t) by assumption.
    rewrite from_tms_overflow by assumption. reflexivity.
  - intros Hz R fmt fuel. rewrite (get_tile_pyramid_describes _ _ t) by assumption.
    rewrite from_tms_out_of_range by assumption. reflexivity.
  - intros R.
    assert (K : forall fmt fuel,
              get_tile_pyramid fuel top max_zoom fmt <> Some (Raise AssertionError)
              /\ get_tile_pyramid fuel top max_zoom fmt
                 <> Some (Raise OverflowError)).
    { intros fmt fuel. rewrite (get_tile_pyramid_in_range _ _ t) by assumption.
      apply while_loop_no_assertion. now constructor. }
    split; [intros fmt fuel | intros fmt _ fuel]; apply K.
  - intros R L [|fuel] Hf; [lia|].
    now apply get_tile_pyramid_no_expansion.
Qed.

Lemma get_tile_pyramid_checks_witness :
  get_tile_pyramid 0 (dict_xyz 4 0 2) 18 default_format
  = Some (Raise AssertionError)
  /\ get_tile_pyramid 0 (dict_xyz 0 0 (- int_too_large)) 18 default_format
     = Some (Raise OverflowError).
Proof.
  split.
  - destruct (get_tile_pyramid_checks (dict_xyz 4 0 2) (mkTile 4 0 2) 18)
      as (_ & H & _).
    + repeat split.
    + apply H; [reflexivity | unfold in_range; cbn; lia].
  - destruct (get_tile_pyramid_checks (dict_xyz 0 0 (- int_too_large))
                (mkTile 0 0 (- int_too_large)) 18) as (H & _).
    + repeat split.
    + apply H. cbn [zoom]. lia.
Defined.

(** C4 as stated fails: with [max_zoom] below the zoom of a valid top
    tile the call returns, and a top tile of zoom 20 is accepted. *)
Lemma get_tile_pyramid_accepts_invalid :
  valid_tile (mkTile 5 314 16) /\ 15 < zoom (mkTile 5 314 16)
  /\ get_tile_pyramid 1 (dict_xyz 5 314 16) 15 default_format
     = Some (Ok ["16-5-314"])
  /\ ~ valid_tile (mkTile 0 0 20)
  /\ get_tile_pyramid 1 (dict_xyz 0 0 20) 20 default_format
     = Some (Ok ["20-0-0"]).
Proof.
  split; [unfold valid_tile, in_range; cbn; lia|].
  split; [cbn; lia|]. split; [vm_compute; reflexivity|].
  split; [unfold valid_tile; cbn; lia | vm_compute; reflexivity].
Qed.

(** ** Sorting strings *)

Lemma str_le_iff (a b : string) :
  str_le a b <-> a = b \/ OrderedTypeEx.String_as_OT.lt a b.
Proof.
  unfold str_le, String.leb.
  pose proof (OrderedTypeEx.String_as_OT.cmp_eq a b) as Ce.
  pose proof (OrderedTypeEx.String_as_OT.cmp_lt a b) as Cl.
  pose proof (OrderedTypeEx.String_as_OT.cmp_lt b a) as Cg.
  pose proof (OrderedTypeEx.String_as_OT.cmp_antisym a b) as Ca.
  unfold OrderedTypeEx.String_as_OT.cmp in *.
  destruct (String.compare a b) eqn:E.
  - split; [intros _; left; now apply Ce | reflexivity].
  - split; [intros _; right; now apply Cl | reflexivity].
  - split; [discriminate|]. intros [Eq|Lt].
    + apply Ce in Eq. discriminate.
    + apply Cl in Lt. discriminate.
Qed.

Lemma str_le_trans (a b c : string) : str_le a b -> str_le b c -> str_le a c.
Proof.
  rewrite !str_le_iff. intros [->|L1] [->|L2]; auto.
  right. eapply OrderedTypeEx.String_as_OT.lt_trans; eassumption.
Qed.

Lemma ltb_false_str_le (a b : string) : (a <? b)%string = false -> str_le b a.
Proof.
  unfold String.ltb, str_le, String.leb. rewrite (String.compare_antisym b a).
  destruct (String.compare a b); simpl; congruence.
Qed.

Lemma ltb_true_str_le (a b : string) : (a <? b)%string = true -> str_le a b.
Proof.
  unfold String.ltb, str_le, String.leb.
  destruct (String.compare a b); simpl; congruence.
Qed.

Lemma insert_sorted_perm (x : string) (l : list string) :
  Permutation (x :: l) (insert_sorted x l).
Proof.
  induction l as [|y l IH]; simpl; [reflexivity|].
  destruct (y <? x)%string; [|reflexivity].
  rewrite perm_swap. now constructor.
Qed.

Lemma sorted_perm (l : list string) : Permutation l (sorted l).
Proof.
  induction l as [|x l IH]; simpl; [constructor|].
  rewrite <- insert_sorted_perm. now constructor.
Qed.

Lemma insert_sorted_StronglySorted (x : string) (l : list string) :
  StronglySorted str_le l -> StronglySorted str_le (insert_sorted x l).
Proof.
  induction 1 as [|y l S IH F]; simpl.
  - repeat constructor.
  - destruct (y <? x)%string eqn:E.
    + constructor; [exact IH|].
      rewrite <- insert_sorted_perm. constructor; [|exact F].
      now apply ltb_true_str_le.
    + apply ltb_false_str_le in E.
      constructor; [now constructor|]. constructor; [exact E|].
      eapply Forall_impl; [|exact F]. intros z. now apply str_le_trans.
Qed.

Lemma sorted_StronglySorted (l : list string) : StronglySorted str_le (sorted l).
Proof.
  induction l as [|x l IH]; simpl; [constructor|].
  now apply insert_sorted_StronglySorted.
Qed.

(** Two sorted lists with the same elements are the same list: the order
    is antisymmetric. *)
Lemma StronglySorted_perm_eq (l1 : list string) :
  forall l2, StronglySorted str_le l1 -> StronglySorted str_le l2 ->
             Permutation l1 l2 -> l1 = l2.
Proof.
  induction l1 as [|a l1 IH]; intros l2 S1 S2 P.
  - apply Permutation_nil in P. now subst.
  - destruct l2 as [|b l2]; [apply Permutation_sym, Permutation_nil in P; discriminate|].
    apply StronglySorted_inv in S1 as [S1 F1], S2 as [S2 F2].
    assert (Eab : a = b).
    { assert (Hb : In b (a :: l1))
        by (eapply Permutation_in; [symmetry; exact P | now left]).
      assert (Ha : In a (b :: l2))
        by (eapply Permutation_in; [exact P | now left]).
      destruct Hb as [->|Hb]; [reflexivity|].
      destruct Ha as [->|Ha]; [reflexivity|].
      rewrite Forall_forall in F1, F2.
      apply String.leb_antisym; [now apply F1 | now apply F2]. }
    subst b. f_equal. apply IH; auto. now apply Permutation_cons_inv in P.
Qed.

Lemma sorted_permutation_invariant (l1 l2 : list string) :
  Permutation l1 l2 -> sorted l1 = sorted l2.
Proof.
  intros P. apply StronglySorted_perm_eq; try apply sorted_StronglySorted.
  rewrite <- !sorted_perm. exact P.
Qed.

(** ** Stripped tasks *)

Lemma lookup_Some_existsb (d : list (string * value)) (k : string) (v : value) :
  lookup d k = Some v -> existsb (String.eqb k) (map fst d) = true.
Proof.
  induction d as [|[k' v'] d IH]; simpl; [discriminate|].
  rewrite (String.eqb_sym k k').
  destruct (k' =? k)%string; [reflexivity | exact IH].
Qed.

(** On a document with a task list the function maps [stripped_task] over
    the list, sorts and joins. *)
Lemma get_stripped_geojson_tasks_features `{Builtins}
  (doc tasks : value) (features : list value) :
  getitem doc "tasks" = Ok tasks ->
  getitem tasks "features" = Ok (VList features) ->
  get_stripped_geojson_tasks doc
  = (stripped_tasks <- mapM stripped_task features;;
     Ok (String.concat newline (sorted stripped_tasks))).
Proof.
  intros Et Ef. unfold get_stripped_geojson_tasks.
  destruct doc as [| | | | | |d]; try discriminate Et.
  cbn [keys bind]. cbn [getitem] in Et.
  destruct (lookup d "tasks") as [v|] eqn:El; [|discriminate Et].
  rewrite (lookup_Some_existsb _ _ _ El). cbn [negb].
  cbn [getitem]. rewrite El. injection Et as ->. cbn [bind].
  rewrite Ef. reflexivity.
Qed.

(** The line of a task, and the whole output on a small project, with the
    double quotes of the source written as single quotes on the right. *)
Example stripped_task_sample :
  @stripped_task sample_builtins (sample_task 338 106 10)
  = Ok (replace squote dquote
          "{'taskID': 338, 'geometry': {'type': 'MultiPolygon', 'coordinates': [[[[106, 10], [106, 11]]]]}}").
Proof. vm_compute. reflexivity. Qed.

Example get_stripped_geojson_tasks_missing_tasks :
  @get_stripped_geojson_tasks sample_builtins (VDict [("projectId", VInt 26)])
  = Raise ValueError.
Proof. reflexivity. Qed.

Lemma task_pair_stripped_task `{Builtins} (task : value) (pair : value * value) :
  task_pair task pair ->
  stripped_task task
  = Ok ("{" ++ String dquote "taskID" ++ String dquote ": "
        ++ replace squote dquote (str (fst pair))
        ++ ", " ++ String dquote "geometry" ++ String dquote ": "
        ++ replace squote dquote (str (snd pair)) ++ "}")%string.
Proof.
  intros (properties & Ep & Ei & Eg). unfold stripped_task.
  rewrite Ep. cbn [bind]. rewrite Ei. cbn [bind]. rewrite Eg. reflexivity.
Qed.

Lemma mapM_Forall2_map {A B C : Type} (f : A -> result B) (g : C -> B)
  (R : A -> C -> Prop) (l : list A) (l' : list C) :
  (forall a c, R a c -> f a = Ok (g c)) ->
  Forall2 R l l' -> mapM f l = Ok (map g l').
Proof.
  intros Hf F. induction F as [|a c l l' Hac F IH]; [reflexivity|].
  cbn [mapM map]. rewrite (Hf a c Hac). cbn [bind]. rewrite IH. reflexivity.
Qed.

(** C6.  Two documents whose tasks hold the same (taskId, geometry) pairs
    up to the order of the tasks (the tasks may differ in everything
    else) are stripped to the same string, so their MD5 checksums are
    equal and [_test_geoj_equality] answers [True].  The string is made
    of one line [{"taskID": <id>, "geometry": <geometry>}] per pair, where
    <id> and <geometry> are the [str] of the two values with every single
    quote turned into a double quote; the lines are sorted and joined by
    newlines. *)
Theorem get_stripped_geojson_tasks_permutation `{Builtins}
  (doc1 doc2 tasks1 tasks2 : value) (features1 features2 : list value)
  (pairs1 pairs2 : list (value * value)) :
  getitem doc1 "tasks" = Ok tasks1 ->
  getitem tasks1 "features" = Ok (VList features1) ->
  getitem doc2 "tasks" = Ok tasks2 ->
  getitem tasks2 "features" = Ok (VList features2) ->
  Forall2 task_pair features1 pairs1 ->
  Forall2 task_pair features2 pairs2 ->
  Permutation pairs1 pairs2 ->
  let line := fun pair : value * value =>
    ("{" ++ String dquote "taskID" ++ String dquote ": "
     ++ replace squote dquote (str (fst pair))
     ++ ", " ++ String dquote "geometry" ++ String dquote ": "
     ++ replace squote dquote (str (snd pair)) ++ "}")%string in
  let out := String.concat newline (sorted (map line pairs1)) in
  get_stripped_geojson_tasks doc1 = Ok out
  /\ get_stripped_geojson_tasks doc2 = Ok out
  /\ (forall out1 out2,
        get_stripped_geojson_tasks doc1 = Ok out1 ->
        get_stripped_geojson_tasks doc2 = Ok out2 ->
        out1 = out2 /\ _get_md5_checksum out1 = _get_md5_checksum out2)
  /\ _test_geoj_equality doc1 doc2 = Ok true
  /\ Permutation (map line pairs1) (sorted (map line pairs1))
  /\ StronglySorted str_le (sorted (map line pairs1)).
Proof.
  intros Et1 Ef1 Et2 Ef2 F1 F2 P line out.
  assert (M1 : mapM stripped_task features1 = Ok (map line pairs1))
    by (apply (mapM_Forall2_map _ _ task_pair); [|exact F1];
        intros a c; apply task_pair_stripped_task).
  assert (M2 : mapM stripped_task features2 = Ok (map line pairs2))
    by (apply (mapM_Forall2_map _ _ task_pair); [|exact F2];
        intros a c; apply task_pair_stripped_task).
  assert (E1 : get_stripped_geojson_tasks doc1 = Ok out)
    by (rewrite (get_stripped_geojson_tasks_features _ _ _ Et1 Ef1), M1;
        reflexivity).
  assert (E2 : get_stripped_geojson_tasks doc2 = Ok out).
  { rewrite (get_stripped_geojson_tasks_features _ _ _ Et2 Ef2), M2.
    cbn [bind]. unfold out.
    now rewrite (sorted_permutation_invariant _ _ (Permutation_map line P)). }
  split; [exact E1|]. split; [exact E2|]. split; [|split; [|split]].
  - intros out1 out2 H1 H2. rewrite E1 in H1. rewrite E2 in H2.
    injection H1 as <-. injection H2 as <-. split; reflexivity.
  - unfold _test_geoj_equality. rewrite E1, E2. cbn [bind].
    now rewrite String.eqb_refl.
  - apply sorted_perm.
  - apply sorted_StronglySorted.
Qed.

Lemma get_stripped_geojson_tasks_permutation_witness :
  let doc1 := sample_project [sample_task 7 3 4; sample_task 338 106 10] in
  let doc2 :=
    VDict [("tasks",
            VDict [("features",
                    VList [VDict [("properties",
                                   VDict [("taskStatus", VStr "DONE");
                                          ("taskId", VInt 338)]);
                                  ("geometry",
                                   VDict [("type", VStr "MultiPolygon");
                                          ("coordinates",
                                           VList [VList [VList [VList [VInt 106; VInt 10];
                                                                VList [VInt 106; VInt 11]]]])])];
                           sample_task 7 3 4])])] in
  let out :=
    ("{" ++ quoted "taskID" ++ ": 338, " ++ quoted "geometry" ++ ": {"
     ++ quoted "type" ++ ": " ++ quoted "MultiPolygon" ++ ", "
     ++ quoted "coordinates" ++ ": [[[[106, 10], [106, 11]]]]}}" ++ newline
     ++ "{" ++ quoted "taskID" ++ ": 7, " ++ quoted "geometry" ++ ": {"
     ++ quoted "type" ++ ": " ++ quoted "MultiPolygon" ++ ", "
     ++ quoted "coordinates" ++ ": [[[[3, 4], [3, 5]]]]}}")%string in
  @get_stripped_geojson_tasks sample_builtins doc1 = Ok out
  /\ @get_stripped_geojson_tasks sample_builtins doc2 = Ok out
  /\ @_test_geoj_equality sample_builtins doc1 doc2 = Ok true.
Proof.
  intros doc1 doc2 out.
  pose (g7 := VDict [("type", VStr "MultiPolygon");
                     ("coordinates",
                      VList [VList [VList [VList [VInt 3; VInt 4];
                                           VList [VInt 3; VInt 5]]]])]).
  pose (g338 := VDict [("type", VStr "MultiPolygon");
                       ("coordinates",
                        VList [VList [VList [VList [VInt 106; VInt 10];
                                             VList [VInt 106; VInt 11]]]])]).
  destruct (@get_stripped_geojson_tasks_permutation sample_builtins
              doc1 doc2
              (VDict [("type", VStr "FeatureCollection");
                      ("features", VList [sample_task 7 3 4; sample_task 338 106 10])])
              (VDict [("features",
                       VList [VDict [("properties",
                                      VDict [("taskStatus", VStr "DONE");
                                             ("taskId", VInt 338)]);
                                     ("geometry", g338)];
                              sample_task 7 3 4])])
              [sample_task 7 3 4; sample_task 338 106 10]
              [VDict [("properties",
                       VDict [("taskStatus", VStr "DONE"); ("taskId", VInt 338)]);
                      ("geometry", g338)];
               sample_task 7 3 4]
              [(VInt 7, g7); (VInt 338, g338)]
              [(VInt 338, g338); (VInt 7, g7)])
    as (E1 & E2 & _ & T & _).
  - reflexivity.
  - reflexivity.
  - reflexivity.
  - reflexivity.
  - repeat constructor; eexists; repeat split; reflexivity.
  - repeat constructor; eexists; repeat split; reflexivity.
  - apply perm_swap.
  - split; [|split; [|exact T]].
    + refine (eq_trans E1 _). vm_compute. reflexivity.
    + refine (eq_trans E2 _). vm_compute. reflexivity.
Defined.

(** ** The area of a pixel *)










(** * Further properties of the code *)

(** ** Children and pyramids *)

Lemma from_tms_Raise_inv (x y z : Z) (e : exn) :
  from_tms x y z = Raise e ->
  (z <= - int_too_large /\ e = OverflowError)
  \/ (- int_too_large < z /\ e = AssertionError).
Proof.
  unfold from_tms. destruct (z <=? - int_too_large) eqn:Ez.
  - apply Z.leb_le in Ez. intros [= <-]. now left.
  - apply Z.leb_gt in Ez. cbv zeta. intros E. right. split; [exact Ez|].
    destruct (negb _); [injection E as <-; reflexivity|].
    destruct (negb _); [injection E as <-; reflexivity | discriminate E].
Qed.

Lemma quadrant_tiles_Raise_inv (t : Tile) (e : exn) :
  _get_quadrant_tiles t = Raise e ->
  (zoom t + 1 <= - int_too_large /\ e = OverflowError)
  \/ (- int_too_large < zoom t + 1 /\ e = AssertionError).
Proof.
  unfold _get_quadrant_tiles. cbv zeta.
  destruct (from_tms _ _ _) eqn:E1; cbn [bind];
    [|intros [= <-]; now apply from_tms_Raise_inv in E1].
  destruct (from_tms _ (_ + 1) _) eqn:E2; cbn [bind];
    [|intros [= <-]; now apply from_tms_Raise_inv in E2].
  destruct (from_tms (_ + 1) _ _) eqn:E3; cbn [bind];
    [|intros [= <-]; now apply from_tms_Raise_inv in E3].
  destruct (from_tms (_ + 1) (_ + 1) _) eqn:E4; cbn [bind];
    [discriminate | intros [= <-]; now apply from_tms_Raise_inv in E4].
Qed.

Lemma quadrant_tiles_Ok_in_range (t : Tile) (children : list Tile) :
  _get_quadrant_tiles t = Ok children ->
  in_range (tms_x t) (tms_y t) (zoom t).
Proof.
  unfold _get_quadrant_tiles, tms. cbn [fst snd]. intros E.
  apply bind_Ok_inv in E as (t1 & _ & E).
  apply bind_Ok_inv in E as (t2 & _ & E).
  apply bind_Ok_inv in E as (t3 & _ & E).
  apply bind_Ok_inv in E as (t4 & E4 & _).
  apply from_tms_Ok_inv in E4 as [_ R].
  pose proof (in_range_zoom_nonneg _ _ _ R) as Hz.
  assert (Hz' : 0 <= zoom t).
  { destruct (Z.eq_dec (zoom t) (-1)) as [Em|]; [|lia].
    destruct R as [Hx _]. rewrite Em in Hx. cbn in Hx. lia. }
  destruct R as [Hx Hy].
  change (zoom t + 1) with (Z.succ (zoom t)) in Hx, Hy.
  rewrite Z.pow_succ_r in Hx, Hy by assumption.
  split; lia.
Qed.

(** X1.  [_get_quadrant_tiles] returns the four children exactly when
    [x] and [y] of the tile are in [[0, 2^zoom - 1]]; otherwise it raises
    [OverflowError] when [zoom + 1 <= - int_too_large] and
    [AssertionError] above that.  So it never fails on a tile that
    [Tile.from_tms] returned, and each child is itself a tile that
    [Tile.from_tms] returns. *)
Theorem quadrant_tiles_outcome (t : Tile) :
  (in_range (tms_x t) (tms_y t) (zoom t) <->
   _get_quadrant_tiles t
   = Ok [child t 0 0; child t 0 1; child t 1 0; child t 1 1])
  /\ (zoom t + 1 <= - int_too_large <->
      _get_quadrant_tiles t = Raise OverflowError)
  /\ (- int_too_large < zoom t + 1 /\ ~ in_range (tms_x t) (tms_y t) (zoom t)
      <-> _get_quadrant_tiles t = Raise AssertionError)
  /\ (forall x y z u,
        from_tms x y z = Ok u ->
        exists children,
          _get_quadrant_tiles u = Ok children
          /\ Forall (fun c => from_tms (tms_x c) (tms_y c) (zoom c) = Ok c)
                    children).
Proof.
  pose proof int_too_large_pos as Hp.
  assert (Low : zoom t + 1 <= - int_too_large ->
                _get_quadrant_tiles t = Raise OverflowError).
  { intros Hz. unfold _get_quadrant_tiles. cbv zeta.
    rewrite from_tms_overflow by assumption. reflexivity. }
  split; [|split; [|split]].
  - split; [apply quadrant_tiles_in_range | apply quadrant_tiles_Ok_in_range].
  - split; [exact Low|].
    intros E. apply quadrant_tiles_Raise_inv in E as [[Hz _]|[_ [=]]]. exact Hz.
  - split.
    + intros [Hz R]. destruct (_get_quadrant_tiles t) as [children|e] eqn:E.
      * apply quadrant_tiles_Ok_in_range in E. contradiction.
      * apply quadrant_tiles_Raise_inv in E as [[Hz' _]|[_ ->]]; [lia | reflexivity].
    + intros E. split.
      * apply quadrant_tiles_Raise_inv in E as [[_ [=]]|[Hz _]]. exact Hz.
      * intros R. rewrite (quadrant_tiles_in_range t R) in E. discriminate.
  - intros x y z u E. apply from_tms_Ok_inv in E as [-> R].
    eexists. split; [apply quadrant_tiles_in_range; exact R|].
    repeat constructor; cbn [child tms_x tms_y zoom];
      (rewrite from_tms_in_range; [reflexivity|]);
      apply (in_range_child (mkTile x y z)); auto; lia.
Qed.

(** Whatever the fuel, a returned list is the list of the leaves. *)
Lemma get_tile_pyramid_Ok_leaves (fuel : nat) (top : pydict) (t : Tile)
  (d : nat) (l : list string) :
  describes top t -> in_range (tms_x t) (tms_y t) (zoom t) ->
  get_tile_pyramid fuel top (zoom t + Z.of_nat d) default_format = Some (Ok l) ->
  l = map tile_ind (leaves d t).
Proof.
  intros D R E.
  pose proof (get_tile_pyramid_leaves fuel top t d D R) as E'.
  rewrite (get_tile_pyramid_in_range _ _ t) in E by assumption.
  rewrite (get_tile_pyramid_in_range _ _ t) in E' by assumption.
  apply (while_loop_mono _ _ _ (subtree_size d + fuel)) in E; [|lia].
  congruence.
Qed.

(** X2.  The pyramid of a tile below [max_zoom] is the concatenation of
    the pyramids of its four children, in the order lower right, upper
    right, lower left, upper left (the reverse of the order in which
    [_get_quadrant_tiles] lists them). *)
Theorem get_tile_pyramid_of_children (top : pydict) (t : Tile) (max_zoom : Z) :
  describes top t -> in_range (tms_x t) (tms_y t) (zoom t) ->
  zoom t < max_zoom ->
  exists fuel l_lr l_ur l_ll l_ul,
    (forall f dx dy l,
        (fuel <= f)%nat ->
        In (dx, dy, l) [(1, 1, l_lr); (1, 0, l_ur); (0, 1, l_ll); (0, 0, l_ul)] ->
        get_tile_pyramid f (dict_xyz (tms_x t * 2 + dx) (tms_y t * 2 + dy)
                                     (zoom t + 1))
                         max_zoom default_format
        = Some (Ok l))
    /\ (forall f, (fuel <= f)%nat ->
          get_tile_pyramid f top max_zoom default_format
          = Some (Ok (l_lr ++ l_ur ++ l_ll ++ l_ul))).
Proof.
  intros D R L.
  set (d := Z.to_nat (max_zoom - zoom t - 1)).
  assert (Em : max_zoom = zoom t + Z.of_nat (S d)) by (unfold d; lia).
  exists (subtree_size (S d)),
    (map tile_ind (leaves d (child t 1 1))),
    (map tile_ind (leaves d (child t 1 0))),
    (map tile_ind (leaves d (child t 0 1))),
    (map tile_ind (leaves d (child t 0 0))).
  split.
  - intros f dx dy l Hf Hin.
    assert (Hc : 0 <= dx <= 1 /\ 0 <= dy <= 1
                 /\ l = map tile_ind (leaves d (child t dx dy))).
    { cbn [In] in Hin.
      repeat (destruct Hin as [Hin|Hin];
              [injection Hin as <- <- <-; repeat split; (lia || reflexivity)|]).
      contradiction. }
    destruct Hc as (Hdx & Hdy & ->).
    replace f with (subtree_size d + (f - subtree_size d))%nat
      by (cbn [subtree_size] in Hf; lia).
    replace max_zoom with (zoom (child t dx dy) + Z.of_nat d)
      by (cbn [child zoom]; lia).
    apply get_tile_pyramid_leaves; [apply (describes_dict_xyz (child t dx dy))|].
    cbn [child tms_x tms_y zoom]. now apply in_range_child.
  - intros f Hf.
    replace f with (subtree_size (S d) + (f - subtree_size (S d)))%nat by lia.
    rewrite Em, get_tile_pyramid_leaves by assumption.
    cbn [leaves]. rewrite !map_app. reflexivity.
Qed.

Lemma get_tile_pyramid_of_children_witness :
  exists fuel l_lr l_ur l_ll l_ul,
    (forall f dx dy l,
        (fuel <= f)%nat ->
        In (dx, dy, l) [(1, 1, l_lr); (1, 0, l_ur); (0, 1, l_ll); (0, 0, l_ul)] ->
        get_tile_pyramid f (dict_xyz (5 * 2 + dx) (314 * 2 + dy) (16 + 1))
                         18 default_format
        = Some (Ok l))
    /\ (forall f, (fuel <= f)%nat ->
          get_tile_pyramid f (dict_xyz 5 314 16) 18 default_format
          = Some (Ok (l_lr ++ l_ur ++ l_ll ++ l_ul))).
Proof.
  apply (get_tile_pyramid_of_children (dict_xyz 5 314 16) (mkTile 5 314 16) 18).
  - repeat split.
  - unfold in_range; cbn; lia.
  - cbn; lia.
Defined.

(** X3.  Two different tiles of the same zoom have no leaf in common:
    the lists [get_tile_pyramid] returns for them share no identifier. *)
Theorem get_tile_pyramid_disjoint (top1 top2 : pydict) (t1 t2 : Tile)
  (max_zoom : Z) (fuel1 fuel2 : nat) (l1 l2 : list string) :
  describes top1 t1 -> describes top2 t2 ->
  in_range (tms_x t1) (tms_y t1) (zoom t1) ->
  in_range (tms_x t2) (tms_y t2) (zoom t2) ->
  zoom t1 = zoom t2 -> t1 <> t2 -> zoom t1 <= max_zoom ->
  get_tile_pyramid fuel1 top1 max_zoom default_format = Some (Ok l1) ->
  get_tile_pyramid fuel2 top2 max_zoom default_format = Some (Ok l2) ->
  forall s, In s l1 -> ~ In s l2.
Proof.
  intros D1 D2 R1 R2 Ez Ne L E1 E2 s H1 H2.
  set (d := Z.to_nat (max_zoom - zoom t1)).
  assert (Em1 : max_zoom = zoom t1 + Z.of_nat d) by (unfold d; lia).
  assert (Em2 : max_zoom = zoom t2 + Z.of_nat d) by lia.
  rewrite Em1 in E1. rewrite Em2 in E2.
  apply get_tile_pyramid_Ok_leaves in E1, E2; auto. subst l1 l2.
  apply in_map_iff in H1 as (a & <- & Ha), H2 as (b & Eab & Hb).
  pose proof (leaves_nonneg _ _ _ R1 Ha) as (? & ? & ?).
  pose proof (leaves_nonneg _ _ _ R2 Hb) as (? & ? & ?).
  apply tile_ind_inj in Eab; auto. subst b.
  apply leaves_spec in Ha as (_ & Hx1 & Hy1), Hb as (_ & Hx2 & Hy2).
  assert (P : 0 < 2 ^ Z.of_nat d) by (apply Z.pow_pos_nonneg; lia).
  apply Ne. destruct t1, t2; cbn in *. f_equal; [nia | nia | assumption].
Qed.

Lemma get_tile_pyramid_disjoint_witness :
  ~ In "17-3-2" ["17-5-3"; "17-5-2"; "17-4-3"; "17-4-2"].
Proof.
  apply (get_tile_pyramid_disjoint (dict_xyz 1 1 16) (dict_xyz 2 1 16)
           (mkTile 1 1 16) (mkTile 2 1 16) 17 5 5
           ["17-3-3"; "17-3-2"; "17-2-3"; "17-2-2"]).
  - repeat split.
  - repeat split.
  - unfold in_range; cbn; lia.
  - unfold in_range; cbn; lia.
  - reflexivity.
  - discriminate.
  - cbn; lia.
  - vm_compute; reflexivity.
  - vm_compute; reflexivity.
  - right; left; reflexivity.
Defined.

(** ** The stack of the loop *)

Lemma state_after_while_loop (max_zoom : Z) (fmt : string) (n : nat) :
  forall stack desired stack' desired' k,
    state_after n max_zoom fmt stack desired = Some (stack', desired') ->
    while_loop (n + k) max_zoom fmt stack desired
    = while_loop k max_zoom fmt stack' desired'.
Proof.
  induction n as [|n IH]; intros stack desired stack' desired' k E.
  - injection E as <- <-. reflexivity.
  - destruct stack as [|u rest]; [discriminate E|].
    cbn [state_after] in E. cbn [Nat.add while_loop].
    destruct (zoom u >=? max_zoom).
    + destruct (str_format fmt _); [now apply IH | discriminate E].
    + destruct (_get_quadrant_tiles u); [now apply IH | discriminate E].
Qed.

Lemma state_after_bounded (max_zoom z0 : Z) (fmt : string) (n : nat) :
  forall stack desired stack' desired',
    stack_bounded z0 stack ->
    Forall (fun u => zoom u <= max_zoom) stack ->
    state_after n max_zoom fmt stack desired = Some (stack', desired') ->
    stack_bounded z0 stack' /\ Forall (fun u => zoom u <= max_zoom) stack'.
Proof.
  induction n as [|n IH]; intros stack desired stack' desired' B F E.
  - injection E as <- <-. now split.
  - destruct stack as [|u rest]; [discriminate E|].
    cbn [state_after] in E. destruct B as [Bu Brest].
    apply Forall_cons_iff in F as [Fu Frest].
    destruct (zoom u >=? max_zoom) eqn:Ez.
    + destruct (str_format fmt _); [|discriminate E].
      eapply IH; [| |exact E]; assumption.
    + destruct (_get_quadrant_tiles u) as [children|] eqn:Eq; [|discriminate E].
      apply quadrant_tiles_Ok_inv in Eq as ->. rewrite put_all_four in E.
      rewrite Z.geb_leb in Ez. apply Z.leb_gt in Ez.
      eapply IH; [| |exact E].
      * cbn [stack_bounded child zoom List.length].
        repeat split; try assumption. all: lia.
      * repeat (apply Forall_cons; [unfold child; cbn [zoom]; lia|]). exact Frest.
Qed.

(** X4.  While [get_tile_pyramid] runs on a top tile with
    [zoom <= max_zoom], its stack never holds more than
    [3 * (max_zoom - zoom) + 1] tiles, whatever the format. *)
Theorem get_tile_pyramid_stack_bound (top : pydict) (t : Tile) (max_zoom : Z)
  (fmt : string) (n : nat) (stack : LifoQueue) (desired : list string) :
  describes top t -> in_range (tms_x t) (tms_y t) (zoom t) ->
  zoom t <= max_zoom ->
  state_after n max_zoom fmt (put [] t) [] = Some (stack, desired) ->
  Z.of_nat (List.length stack) <= 3 * (max_zoom - zoom t) + 1
  /\ forall k, get_tile_pyramid (n + k) top max_zoom fmt
               = while_loop k max_zoom fmt stack desired.
Proof.
  intros D R L E. split.
  - apply (state_after_bounded max_zoom (zoom t)) in E as [B F].
    + destruct stack as [|u rest]; [cbn [List.length]; lia|].
      destruct B as [Bu _]. apply Forall_cons_iff in F as [Fu _].
      cbn [List.length]. lia.
    + unfold put. cbn [stack_bounded List.length]. split; [lia | exact I].
    + repeat constructor. exact L.
  - intros k. rewrite (get_tile_pyramid_in_range _ _ t) by assumption.
    now apply state_after_while_loop.
Qed.

Lemma get_tile_pyramid_stack_bound_witness :
  Z.of_nat (List.length [mkTile 23 1259 18; mkTile 23 1258 18;
                         mkTile 22 1259 18; mkTile 22 1258 18;
                         mkTile 11 628 17; mkTile 10 629 17; mkTile 10 628 17])
  <= 3 * (18 - 16) + 1.
Proof.
  apply (get_tile_pyramid_stack_bound (dict_xyz 5 314 16) (mkTile 5 314 16)
           18 default_format 2
           [mkTile 23 1259 18; mkTile 23 1258 18; mkTile 22 1259 18;
            mkTile 22 1258 18; mkTile 11 628 17; mkTile 10 629 17;
            mkTile 10 628 17]
           []).
  - repeat split.
  - unfold in_range; cbn; lia.
  - cbn; lia.
  - vm_compute; reflexivity.
Defined.

(** ** Any format *)

Lemma mapM_app {A B : Type} (f : A -> result B) (l1 l2 : list A) :
  mapM f (l1 ++ l2)
  = (bs1 <- mapM f l1;; bs2 <- mapM f l2;; Ok (bs1 ++ bs2)).
Proof.
  induction l1 as [|a l1 IH]; cbn [mapM app bind].
  - destruct (mapM f l2); reflexivity.
  - destruct (f a) as [b|e]; cbn [bind]; [|reflexivity].
    rewrite IH. destruct (mapM f l1) as [bs1|e]; cbn [bind]; [|reflexivity].
    destruct (mapM f l2); reflexivity.
Qed.

Lemma mapM_length {A B : Type} (f : A -> result B) (l : list A) (bs : list B) :
  mapM f l = Ok bs -> List.length bs = List.length l.
Proof.
  intros E. apply mapM_Ok_Forall2 in E.
  induction E; cbn [List.length]; congruence.
Qed.

(** Below a tile [d] zooms above [max_zoom] the loop formats the leaves in
    order, and stops at the first one whose formatting raises. *)
Lemma while_loop_leaves_format (max_zoom : Z) (fmt : string) (d : nat) :
  forall (t : Tile) (stack : LifoQueue) (desired : list string) (fuel : nat),
    in_range (tms_x t) (tms_y t) (zoom t) ->
    max_zoom = zoom t + Z.of_nat d ->
    while_loop (subtree_size d + fuel) max_zoom fmt (t :: stack) desired
    = match mapM (format_tile fmt) (leaves d t) with
      | Ok ss => while_loop fuel max_zoom fmt stack (desired ++ ss)
      | Raise e => Some (Raise e)
      end.
Proof.
  induction d as [|d IH]; intros t stack desired fuel R E.
  - change (subtree_size 0 + fuel)%nat with (S fuel).
    cbn [while_loop leaves mapM bind].
    replace (zoom t >=? max_zoom) with true by (symmetry; apply Z.geb_le; lia).
    unfold format_tile. destruct (str_format fmt _); reflexivity.
  - replace (subtree_size (S d) + fuel)%nat
      with (S (subtree_size d + (subtree_size d
                + (subtree_size d + (subtree_size d + fuel)))))%nat
      by (cbn [subtree_size]; lia).
    cbn [while_loop].
    replace (zoom t >=? max_zoom) with false
      by (symmetry; rewrite Z.geb_leb; apply Z.leb_gt; lia).
    rewrite (quadrant_tiles_in_range t R), put_all_four.
    assert (Ec : forall dx dy, max_zoom = zoom (child t dx dy) + Z.of_nat d)
      by (intros; cbn [child zoom]; lia).
    assert (Rc : forall dx dy, 0 <= dx <= 1 -> 0 <= dy <= 1 ->
                 in_range (tms_x (child t dx dy)) (tms_y (child t dx dy))
                          (zoom (child t dx dy)))
      by (intros; cbn [child tms_x tms_y zoom]; now apply in_range_child).
    cbn [leaves]. rewrite !mapM_app.
    rewrite (IH (child t 1 1)) by (auto; apply Rc; lia).
    destruct (mapM _ (leaves d (child t 1 1))) as [s1|e]; cbn [bind]; [|reflexivity].
    rewrite (IH (child t 1 0)) by (auto; apply Rc; lia).
    destruct (mapM _ (leaves d (child t 1 0))) as [s2|e]; cbn [bind]; [|reflexivity].
    rewrite (IH (child t 0 1)) by (auto; apply Rc; lia).
    destruct (mapM _ (leaves d (child t 0 1))) as [s3|e]; cbn [bind]; [|reflexivity].
    rewrite (IH (child t 0 0)) by (auto; apply Rc; lia).
    destruct (mapM _ (leaves d (child t 0 0))) as [s4|e]; cbn [bind]; [|reflexivity].
    rewrite <- !app_assoc. reflexivity.
Qed.

(** X5.  With a [ret_format] made of literal text and plain fields
    [{name}] (the fragment of [str.format] that is modelled), on a top
    tile whose [x], [y] are in range and [zoom <= max_zoom]: the call
    returns the format applied to each of the [4 ^ (max_zoom - zoom)]
    leaves in depth-first order, or raises what the first failing leaf
    raises (an unknown field name gives [KeyError]); it returns no partial
    list. *)
Theorem get_tile_pyramid_any_format (top : pydict) (t : Tile) (max_zoom : Z)
  (fmt : string) :
  format_modelled fmt ->
  describes top t -> in_range (tms_x t) (tms_y t) (zoom t) ->
  zoom t <= max_zoom ->
  let d := Z.to_nat (max_zoom - zoom t) in
  (forall fuel, (subtree_size d <= fuel)%nat ->
     get_tile_pyramid fuel top max_zoom fmt
     = Some (mapM (format_tile fmt) (leaves d t)))
  /\ (forall fuel l,
        get_tile_pyramid fuel top max_zoom fmt = Some (Ok l) ->
        Z.of_nat (List.length l) = 4 ^ (max_zoom - zoom t)
        /\ Forall2 (fun u s => format_tile fmt u = Ok s) (leaves d t) l)
  /\ (forall fuel e,
        get_tile_pyramid fuel top max_zoom fmt = Some (Raise e) ->
        e <> NotModelled
        /\ exists u, In u (leaves d t) /\ format_tile fmt u = Raise e).
Proof.
  intros M D R L d.
  assert (Em : max_zoom = zoom t + Z.of_nat d) by (unfold d; lia).
  assert (Full : forall fuel, (subtree_size d <= fuel)%nat ->
            get_tile_pyramid fuel top max_zoom fmt
            = Some (mapM (format_tile fmt) (leaves d t))).
  { intros fuel Hf. rewrite (get_tile_pyramid_in_range _ _ t) by assumption.
    replace fuel with (subtree_size d + (fuel - subtree_size d))%nat by lia.
    rewrite (while_loop_leaves_format max_zoom fmt d) by assumption.
    destruct (mapM _ _); [apply while_loop_nil | reflexivity]. }
  assert (Any : forall fuel r,
            get_tile_pyramid fuel top max_zoom fmt = Some r ->
            mapM (format_tile fmt) (leaves d t) = r).
  { intros fuel r E.
    pose proof (Full (Nat.max fuel (subtree_size d)) ltac:(lia)) as E'.
    rewrite (get_tile_pyramid_in_range _ _ t) in E by assumption.
    rewrite (get_tile_pyramid_in_range _ _ t) in E' by assumption.
    apply (while_loop_mono _ _ _ (Nat.max fuel (subtree_size d))) in E; [|lia].
    congruence. }
  split; [exact Full|]. split.
  - intros fuel l E. apply Any in E. split.
    + rewrite (mapM_length _ _ _ E), leaves_length, Nat2Z.inj_pow.
      f_equal. unfold d. lia.
    + now apply mapM_Ok_Forall2.
  - intros fuel e E. apply Any in E.
    assert (Ex : exists u, In u (leaves d t) /\ format_tile fmt u = Raise e).
    { clear - E.
      induction (leaves d t) as [|u l IH]; [discriminate E|].
      cbn [mapM] in E.
      destruct (format_tile fmt u) as [s|e'] eqn:Eu; cbn [bind] in E.
      + destruct (mapM (format_tile fmt) l) as [ss|e'']; [discriminate E|].
        injection E as ->. destruct (IH eq_refl) as (v & Hv & Ev).
        exists v. split; [now right | exact Ev].
      + injection E as ->. exists u. split; [now left | exact Eu]. }
    split; [|exact Ex]. destruct Ex as (u & _ & Eu). intros ->.
    revert Eu. apply M.
Qed.

Lemma get_tile_pyramid_any_format_witness :
  get_tile_pyramid 5 (dict_xyz 1 1 16) 17 "{w}" = Some (Raise KeyError)
  /\ get_tile_pyramid 5 (dict_xyz 1 1 16) 17 "{y}/{x}"
     = Some (Ok ["3/3"; "2/3"; "3/2"; "2/2"]).
Proof.
  assert (Mw : format_modelled "{w}") by (intros x y z; discriminate).
  assert (Mp : format_modelled "{y}/{x}") by (intros x y z; discriminate).
  pose proof (get_tile_pyramid_any_format (dict_xyz 1 1 16) (mkTile 1 1 16) 17
                "{w}" Mw) as Hw.
  pose proof (get_tile_pyramid_any_format (dict_xyz 1 1 16) (mkTile 1 1 16) 17
                "{y}/{x}" Mp) as Hp.
  cbv zeta in Hw, Hp.
  destruct Hw as (Hw & _);
    [repeat split | unfold in_range; cbn; lia | cbn; lia|].
  destruct Hp as (Hp & _);
    [repeat split | unfold in_range; cbn; lia | cbn; lia|].
  split.
  - rewrite Hw by (vm_compute; repeat constructor). reflexivity.
  - rewrite Hp by (vm_compute; repeat constructor). reflexivity.
Defined.

(** ** Identifiers read back by [cog_windowed_read] *)

Lemma tile_of_ind_tile_ind (t : Tile) :
  in_range (tms_x t) (tms_y t) (zoom t) -> tile_of_ind (tile_ind t) = Ok t.
Proof.
  intros R. pose proof (in_range_zoom_nonneg _ _ _ R) as Hz.
  pose proof R as [Hx Hy]. unfold tile_of_ind.
  rewrite parse_tile_ind by lia. cbn [bind].
  rewrite from_tms_in_range by assumption. destruct t; reflexivity.
Qed.

Lemma leaves_in_range (d : nat) (t u : Tile) :
  in_range (tms_x t) (tms_y t) (zoom t) -> In u (leaves d t) ->
  in_range (tms_x u) (tms_y u) (zoom u).
Proof.
  intros R Hu. pose proof (in_range_zoom_nonneg _ _ _ R) as Hz.
  destruct R as [Hx Hy]. apply leaves_spec in Hu as (Ez & Hx' & Hy').
  unfold in_range. rewrite Ez, Z.pow_add_r by lia.
  assert (P : 0 < 2 ^ Z.of_nat d) by (apply Z.pow_pos_nonneg; lia).
  split; nia.
Qed.

(** X6.  Every identifier that [get_tile_pyramid] returns (default
    format, top tile in range, [zoom <= max_zoom]) is accepted by
    [cog_windowed_read] as a string; the tile it denotes is at zoom
    [max_zoom], inside the top tile, and is the tile the dictionary form
    of the same coordinates denotes. *)
Theorem get_tile_pyramid_cog_tile (top : pydict) (t : Tile) (max_zoom : Z)
  (fuel : nat) (l : list string) :
  describes top t -> in_range (tms_x t) (tms_y t) (zoom t) ->
  zoom t <= max_zoom ->
  get_tile_pyramid fuel top max_zoom default_format = Some (Ok l) ->
  Forall (fun s => exists u,
            cog_tile (TileStr s) = Ok u
            /\ cog_tile (TileDict (dict_xyz (tms_x u) (tms_y u) (zoom u))) = Ok u
            /\ zoom u = max_zoom
            /\ tms_x t * 2 ^ (max_zoom - zoom t) <= tms_x u
               <= (tms_x t + 1) * 2 ^ (max_zoom - zoom t) - 1
            /\ tms_y t * 2 ^ (max_zoom - zoom t) <= tms_y u
               <= (tms_y t + 1) * 2 ^ (max_zoom - zoom t) - 1) l.
Proof.
  intros D R L E.
  set (d := Z.to_nat (max_zoom - zoom t)).
  assert (Ed : max_zoom - zoom t = Z.of_nat d) by (unfold d; lia).
  assert (Em : max_zoom = zoom t + Z.of_nat d) by lia.
  rewrite Em in E. apply get_tile_pyramid_Ok_leaves in E; auto. subst l.
  apply Forall_forall. intros s Hs.
  apply in_map_iff in Hs as (u & <- & Hu). exists u.
  pose proof (leaves_in_range _ _ _ R Hu) as Ru.
  apply leaves_spec in Hu as (Ez & Hx & Hy). rewrite Ed.
  split; [cbn [cog_tile]; now apply tile_of_ind_tile_ind|].
  split; [cbn [cog_tile dict_xyz dict_get String.eqb Ascii.eqb Bool.eqb bind];
          rewrite from_tms_in_range by assumption; destruct u; reflexivity|].
  split; [lia|]. split; assumption.
Qed.

Lemma get_tile_pyramid_cog_tile_witness :
  Forall (fun s => exists u,
            cog_tile (TileStr s) = Ok u
            /\ cog_tile (TileDict (dict_xyz (tms_x u) (tms_y u) (zoom u))) = Ok u
            /\ zoom u = 17
            /\ 1 * 2 ^ (17 - 16) <= tms_x u <= (1 + 1) * 2 ^ (17 - 16) - 1
            /\ 1 * 2 ^ (17 - 16) <= tms_y u <= (1 + 1) * 2 ^ (17 - 16) - 1)
         ["17-3-3"; "17-3-2"; "17-2-3"; "17-2-2"].
Proof.
  apply (get_tile_pyramid_cog_tile (dict_xyz 1 1 16) (mkTile 1 1 16) 17 5).
  - repeat split.
  - unfold in_range; cbn; lia.
  - cbn; lia.
  - vm_compute; reflexivity.
Defined.

(** X7.  When the string branch of [cog_windowed_read] accepts an
    identifier, the string has exactly three fields between dashes, they
    read as the zoom, [x] and [y] of the tile, these are in range (so none
    is negative), and the canonical identifier of the tile is accepted too
    and denotes the same tile. *)
Theorem tile_of_ind_accepted (s : string) (t : Tile) :
  tile_of_ind s = Ok t ->
  (exists a b c,
      split "-" s = [a; b; c]
      /\ py_int a = Ok (zoom t) /\ py_int b = Ok (tms_x t)
      /\ py_int c = Ok (tms_y t))
  /\ in_range (tms_x t) (tms_y t) (zoom t)
  /\ tile_of_ind (tile_ind t) = Ok t.
Proof.
  unfold tile_of_ind at 1. intros E.
  apply bind_Ok_inv in E as (vals & M & E).
  destruct vals as [|z [|x [|y [|]]]]; try discriminate E.
  apply from_tms_Ok_inv in E as [-> R]. cbn [tms_x tms_y zoom].
  apply mapM_Ok_Forall2 in M.
  inversion M as [|a ? l1 ? Ea M1]; subst.
  inversion M1 as [|b ? l2 ? Eb M2]; subst.
  inversion M2 as [|c ? l3 ? Ec M3]; subst.
  inversion M3; subst.
  split; [exists a, b, c; auto|]. split; [exact R|].
  now apply (tile_of_ind_tile_ind (mkTile x y z)).
Qed.

Lemma tile_of_ind_accepted_witness :
  (exists a b c,
      split "-" "018-0023-1259" = [a; b; c]
      /\ py_int a = Ok 18 /\ py_int b = Ok 23 /\ py_int c = Ok 1259)
  /\ in_range 23 1259 18
  /\ tile_of_ind (tile_ind (mkTile 23 1259 18)) = Ok (mkTile 23 1259 18).
Proof.
  apply (tile_of_ind_accepted "018-0023-1259" (mkTile 23 1259 18)).
  vm_compute; reflexivity.
Defined.

Lemma str_int_negative (n : Z) : n < 0 -> exists s, str_int n = String "-" s.
Proof. destruct n; try lia. intros _. eexists. reflexivity. Qed.

(** X8.  The identifier of a tile with a negative zoom, [x] or [y] is
    refused by the string branch of [cog_windowed_read] with [ValueError]
    (the minus sign reads as a separator and leaves an empty field); the
    dictionary branch refuses the same tile with [AssertionError] when
    the zoom is above [- int_too_large], and with [OverflowError] at or
    below it. *)
Theorem tile_of_ind_negative (t : Tile) :
  zoom t < 0 \/ tms_x t < 0 \/ tms_y t < 0 ->
  cog_tile (TileStr (tile_ind t)) = Raise ValueError
  /\ (- int_too_large < zoom t ->
      cog_tile (TileDict (dict_xyz (tms_x t) (tms_y t) (zoom t)))
      = Raise AssertionError)
  /\ (zoom t <= - int_too_large ->
      cog_tile (TileDict (dict_xyz (tms_x t) (tms_y t) (zoom t)))
      = Raise OverflowError).
Proof.
  intros H. split; [|split].
  - cbn [cog_tile]. unfold tile_of_ind, tile_ind. cbn [String.append].
    destruct (Z.lt_ge_cases (zoom t) 0) as [Hz|Hz].
    { destruct (str_int_negative _ Hz) as (sz & ->). reflexivity. }
    rewrite split_app by now apply str_int_no_dash.
    cbn [mapM]. rewrite py_int_str_int. cbn [bind].
    destruct (Z.lt_ge_cases (tms_x t) 0) as [Hx|Hx].
    { destruct (str_int_negative _ Hx) as (sx & ->). reflexivity. }
    rewrite split_app by now apply str_int_no_dash.
    cbn [mapM]. rewrite py_int_str_int. cbn [bind].
    destruct (str_int_negative (tms_y t)) as (sy & ->); [lia|]. reflexivity.
  - intros Hz.
    cbn [cog_tile dict_xyz dict_get String.eqb Ascii.eqb Bool.eqb bind].
    apply from_tms_out_of_range; [exact Hz|]. intros R.
    pose proof (in_range_zoom_nonneg _ _ _ R). destruct R. lia.
  - intros Hz.
    cbn [cog_tile dict_xyz dict_get String.eqb Ascii.eqb Bool.eqb bind].
    now apply from_tms_overflow.
Qed.

Lemma tile_of_ind_negative_witness :
  cog_tile (TileStr (tile_ind (mkTile (-1) 0 3))) = Raise ValueError
  /\ cog_tile (TileDict (dict_xyz (-1) 0 3)) = Raise AssertionError.
Proof.
  destruct (tile_of_ind_negative (mkTile (-1) 0 3)) as (Hs & Hd & _).
  - cbn; lia.
  - split; [exact Hs | apply Hd; reflexivity].
Defined.

(** ** Stripping a project: errors and what the result depends on *)

Lemma lookup_None_existsb (d : list (string * value)) (k : string) :
  lookup d k = None -> existsb (String.eqb k) (map fst d) = false.
Proof.
  induction d as [|[k' v'] d IH]; simpl; [reflexivity|].
  rewrite (String.eqb_sym k k').
  destruct (k' =? k)%string; [discriminate | exact IH].
Qed.

(** X9.  The errors of [get_stripped_geojson_tasks] on the shape of the
    document: a document that is not a dictionary raises
    [AttributeError]; a dictionary without the key ['tasks'] raises
    [ValueError]; a ['tasks'] that is not a dictionary raises [TypeError]
    and one without ['features'] raises [KeyError]; an empty list of
    features gives the empty string. *)
Theorem get_stripped_geojson_tasks_shape `{Builtins} (doc : value) :
  ((forall d, doc <> VDict d) ->
   get_stripped_geojson_tasks doc = Raise AttributeError)
  /\ (forall d, doc = VDict d -> lookup d "tasks" = None ->
        get_stripped_geojson_tasks doc = Raise ValueError)
  /\ (forall tasks, getitem doc "tasks" = Ok tasks ->
        (forall d, tasks <> VDict d) ->
        get_stripped_geojson_tasks doc = Raise TypeError)
  /\ (forall d, getitem doc "tasks" = Ok (VDict d) ->
        lookup d "features" = None ->
        get_stripped_geojson_tasks doc = Raise KeyError)
  /\ (forall tasks, getitem doc "tasks" = Ok tasks ->
        getitem tasks "features" = Ok (VList []) ->
        get_stripped_geojson_tasks doc = Ok "").
Proof.
  assert (Tasks : forall tasks, getitem doc "tasks" = Ok tasks ->
            get_stripped_geojson_tasks doc
            = (features <- getitem tasks "features";;
               feature_list <- iter features;;
               stripped_tasks <- mapM stripped_task feature_list;;
               Ok (String.concat newline (sorted stripped_tasks)))).
  { intros tasks Et. unfold get_stripped_geojson_tasks.
    destruct doc as [| | | | | |d]; try discriminate Et.
    cbn [keys bind]. cbn [getitem] in Et.
    destruct (lookup d "tasks") as [v|] eqn:El; [|discriminate Et].
    rewrite (lookup_Some_existsb _ _ _ El). cbn [negb getitem].
    rewrite El. injection Et as ->. reflexivity. }
  split; [|split; [|split; [|split]]].
  - intros Hd. destruct doc; try reflexivity. now destruct (Hd d).
  - intros d -> El. unfold get_stripped_geojson_tasks. cbn [keys bind].
    rewrite (lookup_None_existsb _ _ El). reflexivity.
  - intros tasks Et Hd. rewrite (Tasks _ Et).
    destruct tasks; try reflexivity. now destruct (Hd d).
  - intros d Et El. rewrite (Tasks _ Et). cbn [getitem]. rewrite El. reflexivity.
  - intros tasks Et Ef. rewrite (Tasks _ Et), Ef. reflexivity.
Qed.

(** X10.  Whether [get_stripped_geojson_tasks] returns depends on the
    tasks alone: on a document with a list of features it returns a string
    exactly when every task has ['properties'] with a ['taskId'] and has a
    ['geometry']; the string then has one line per task. *)
Theorem get_stripped_geojson_tasks_returns `{Builtins}
  (doc tasks : value) (features : list value) :
  getitem doc "tasks" = Ok tasks ->
  getitem tasks "features" = Ok (VList features) ->
  ((exists out, get_stripped_geojson_tasks doc = Ok out)
   <-> Forall (fun task => has_id_geometry task) features)
  /\ (forall out, get_stripped_geojson_tasks doc = Ok out ->
        exists lines,
          List.length lines = List.length features
          /\ out = String.concat newline (sorted lines)).
Proof.
  intros Et Ef. rewrite (get_stripped_geojson_tasks_features _ _ _ Et Ef).
  split; [split|].
  - intros (out & E). apply bind_Ok_inv in E as (lines & M & _).
    apply mapM_Ok_Forall2 in M. clear - M.
    induction M as [|task line l ls E M IH]; constructor; [|exact IH].
    unfold stripped_task in E.
    apply bind_Ok_inv in E as (p & Ep & E).
    apply bind_Ok_inv in E as (i & Ei & E).
    apply bind_Ok_inv in E as (g & Eg & _).
    exists p, i, g. auto.
  - intros F.
    assert (M : exists lines, mapM stripped_task features = Ok lines).
    { clear - F.
      induction F as [|task l (p & i & g & Ep & Ei & Eg) F (lines & IH)].
      - eexists. reflexivity.
      - cbn [mapM]. unfold stripped_task at 1.
        rewrite Ep; cbn [bind]. rewrite Ei; cbn [bind]. rewrite Eg; cbn [bind].
        rewrite IH. eexists. reflexivity. }
    destruct M as (lines & ->). eexists. reflexivity.
  - intros out E. apply bind_Ok_inv in E as (lines & M & [= <-]).
    exists lines. split; [now apply mapM_length in M | reflexivity].
Qed.

Lemma get_stripped_geojson_tasks_returns_witness :
  let doc := sample_project [sample_task 338 106 10; sample_task 7 3 4] in
  (exists out, @get_stripped_geojson_tasks sample_builtins doc = Ok out)
  <-> Forall (fun task => has_id_geometry task)
             [sample_task 338 106 10; sample_task 7 3 4].
Proof.
  intros doc.
  apply (@get_stripped_geojson_tasks_returns sample_builtins doc
           (VDict [("type", VStr "FeatureCollection");
                   ("features", VList [sample_task 338 106 10; sample_task 7 3 4])])
           [sample_task 338 106 10; sample_task 7 3 4]);
    reflexivity.
Defined.

(** X11.  Stripping keeps the task id and the geometry only: two
    documents whose tasks have, one by one, the same ['taskId'] and the
    same ['geometry'] are stripped to the same string, whatever else the
    tasks, their properties and the documents hold. *)
Theorem get_stripped_geojson_tasks_only_id_geometry `{Builtins}
  (doc1 doc2 tasks1 tasks2 : value) (features1 features2 : list value) :
  getitem doc1 "tasks" = Ok tasks1 ->
  getitem tasks1 "features" = Ok (VList features1) ->
  getitem doc2 "tasks" = Ok tasks2 ->
  getitem tasks2 "features" = Ok (VList features2) ->
  Forall2 (fun t1 t2 =>
             exists p1 p2 task_id geometry,
               getitem t1 "properties" = Ok p1
               /\ getitem p1 "taskId" = Ok task_id
               /\ getitem t1 "geometry" = Ok geometry
               /\ getitem t2 "properties" = Ok p2
               /\ getitem p2 "taskId" = Ok task_id
               /\ getitem t2 "geometry" = Ok geometry)
          features1 features2 ->
  exists out,
    get_stripped_geojson_tasks doc1 = Ok out
    /\ get_stripped_geojson_tasks doc2 = Ok out.
Proof.
  intros Et1 Ef1 Et2 Ef2 F.
  rewrite (get_stripped_geojson_tasks_features _ _ _ Et1 Ef1).
  rewrite (get_stripped_geojson_tasks_features _ _ _ Et2 Ef2).
  assert (M : exists lines, mapM stripped_task features1 = Ok lines
                            /\ mapM stripped_task features2 = Ok lines).
  { clear - F.
    induction F as [|t1 t2 l1 l2 (p1 & p2 & i & g & E1 & E2 & E3 & E4 & E5 & E6)
                       F (lines & IH1 & IH2)].
    - exists []. split; reflexivity.
    - eexists. cbn [mapM]. unfold stripped_task at 1 3.
      rewrite E1, E4; cbn [bind]. rewrite E2, E5; cbn [bind].
      rewrite E3, E6; cbn [bind]. rewrite IH1, IH2; cbn [bind].
      split; reflexivity. }
  destruct M as (lines & -> & ->). eexists. split; reflexivity.
Qed.

Lemma get_stripped_geojson_tasks_only_id_geometry_witness :
  exists out,
    @get_stripped_geojson_tasks sample_builtins
       (sample_project [sample_task 338 106 10]) = Ok out
    /\ @get_stripped_geojson_tasks sample_builtins
         (VDict [("tasks",
                  VDict [("features",
                          VList [VDict [("properties", VDict [("taskId", VInt 338)]);
                                        ("geometry",
                                         VDict [("type", VStr "MultiPolygon");
                                                ("coordinates",
                                                 VList [VList [VList
                                                   [VList [VInt 106; VInt 10];
                                                    VList [VInt 106; VInt (10 + 1)]]]])])]])])])
       = Ok out.
Proof.
  eapply (@get_stripped_geojson_tasks_only_id_geometry sample_builtins);
    try reflexivity.
  constructor; [|constructor].
  do 4 eexists. repeat split; reflexivity.
Defined.

Lemma string_length_append (a b : string) :
  String.length (a ++ b) = (String.length a + String.length b)%nat.
Proof. induction a as [|c a IH]; simpl; [reflexivity | now rewrite IH]. Qed.

Lemma append_cancel_r (a b r : string) : (a ++ r = b ++ r)%string -> a = b.
Proof.
  revert b. induction a as [|c a IH]; intros [|c' b] E; simpl in E.
  - reflexivity.
  - apply (f_equal String.length) in E. simpl in E.
    rewrite string_length_append in E. lia.
  - apply (f_equal String.length) in E. simpl in E.
    rewrite string_length_append in E. lia.
  - injection E as -> E. f_equal. now apply IH.
Qed.

Lemma replace_absent (a b : ascii) (s : string) :
  mem_char a s = false -> replace a b s = s.
Proof.
  induction s as [|c s IH]; simpl; [reflexivity|].
  intros E. apply orb_false_elim in E as [Ec Es].
  rewrite Ec, (IH Es). reflexivity.
Qed.

Lemma uint_digits_no_squote (d : Decimal.uint) :
  mem_char squote (NilEmpty.string_of_uint d) = false.
Proof. induction d; simpl; auto. Qed.

Lemma str_int_no_squote (n : Z) : mem_char squote (str_int n) = false.
Proof.
  unfold str_int, Z.to_int, NilZero.string_of_int, NilZero.string_of_uint.
  destruct n as [|p|p]; [reflexivity | |];
    destruct (Pos.to_uint p); try apply uint_digits_no_squote; reflexivity.
Qed.

Lemma str_int_inj (a b : Z) : str_int a = str_int b -> a = b.
Proof.
  intros E. pose proof (py_int_str_int a) as Ea. rewrite E, py_int_str_int in Ea.
  congruence.
Qed.

Lemma task_line_inj_id (a b g : string) : task_line a g = task_line b g -> a = b.
Proof.
  unfold task_line. cbn [String.append]. intros E.
  injection E as E. now apply append_cancel_r in E.
Qed.

(** X12.  Renumbering the task of a one-task project changes the stripped
    string: with the same geometry, two different integer task ids never
    give the same result. *)
Theorem get_stripped_geojson_tasks_id_matters `{Builtins}
  (doc1 doc2 tasks1 tasks2 t1 t2 p1 p2 geometry : value) (id1 id2 : Z)
  (out1 out2 : string) :
  getitem doc1 "tasks" = Ok tasks1 ->
  getitem tasks1 "features" = Ok (VList [t1]) ->
  getitem doc2 "tasks" = Ok tasks2 ->
  getitem tasks2 "features" = Ok (VList [t2]) ->
  getitem t1 "properties" = Ok p1 -> getitem p1 "taskId" = Ok (VInt id1) ->
  getitem t2 "properties" = Ok p2 -> getitem p2 "taskId" = Ok (VInt id2) ->
  getitem t1 "geometry" = Ok geometry -> getitem t2 "geometry" = Ok geometry ->
  id1 <> id2 ->
  get_stripped_geojson_tasks doc1 = Ok out1 ->
  get_stripped_geojson_tasks doc2 = Ok out2 ->
  out1 <> out2.
Proof.
  intros Et1 Ef1 Et2 Ef2 Ep1 Ei1 Ep2 Ei2 Eg1 Eg2 Ne E1 E2 Eq.
  rewrite (get_stripped_geojson_tasks_features _ _ _ Et1 Ef1) in E1.
  rewrite (get_stripped_geojson_tasks_features _ _ _ Et2 Ef2) in E2.
  cbn [mapM] in E1, E2. unfold stripped_task in E1, E2.
  rewrite Ep1 in E1; cbn [bind] in E1. rewrite Ei1 in E1; cbn [bind] in E1.
  rewrite Eg1 in E1.
  rewrite Ep2 in E2; cbn [bind] in E2. rewrite Ei2 in E2; cbn [bind] in E2.
  rewrite Eg2 in E2.
  cbn [bind mapM sorted fold_right insert_sorted String.concat str repr] in E1, E2.
  rewrite replace_absent in E1, E2 by apply str_int_no_squote.
  injection E1 as <-. injection E2 as <-.
  apply task_line_inj_id, str_int_inj in Eq. contradiction.
Qed.

Lemma get_stripped_geojson_tasks_id_matters_witness :
  exists out1 out2,
    @get_stripped_geojson_tasks sample_builtins
       (sample_project [sample_task 338 106 10]) = Ok out1
    /\ @get_stripped_geojson_tasks sample_builtins
         (sample_project [sample_task 339 106 10]) = Ok out2
    /\ out1 <> out2.
Proof.
  destruct (@get_stripped_geojson_tasks sample_builtins
              (sample_project [sample_task 338 106 10])) as [out1|e] eqn:E1;
    [|vm_compute in E1; discriminate E1].
  destruct (@get_stripped_geojson_tasks sample_builtins
              (sample_project [sample_task 339 106 10])) as [out2|e] eqn:E2;
    [|vm_compute in E2; discriminate E2].
  exists out1, out2. split; [reflexivity|]. split; [reflexivity|].
  apply (@get_stripped_geojson_tasks_id_matters sample_builtins
           (sample_project [sample_task 338 106 10])
           (sample_project [sample_task 339 106 10])
           (VDict [("type", VStr "FeatureCollection");
                   ("features", VList [sample_task 338 106 10])])
           (VDict [("type", VStr "FeatureCollection");
                   ("features", VList [sample_task 339 106 10])])
           (sample_task 338 106 10) (sample_task 339 106 10)
           (VDict [("taskId", VInt 338); ("taskStatus", VStr "READY")])
           (VDict [("taskId", VInt 339); ("taskStatus", VStr "READY")])
           (VDict [("type", VStr "MultiPolygon");
                   ("coordinates",
                    VList [VList [VList [VList [VInt 106; VInt 10];
                                         VList [VInt 106; VInt (10 + 1)]]]])])
           338 339 out1 out2);
    [reflexivity | reflexivity | reflexivity | reflexivity | reflexivity
    | reflexivity | reflexivity | reflexivity | reflexivity | reflexivity
    | discriminate | exact E1 | exact E2].
Defined.

(** ** Totals of building areas *)




Lemma filter_nil_iff {A : Type} (f : A -> bool) (l : list A) :
  filter f l = [] <-> forall a, In a l -> f a = false.
Proof.
  induction l as [|a l IH]; cbn [filter].
  - split; [intros _ a [] | reflexivity].
  - destruct (f a) eqn:E; split.
    + discriminate.
    + intros Hf. specialize (Hf a (or_introl eq_refl)). congruence.
    + intros El b [<-|Hb]; [exact E | now apply IH].
    + intros Hf. apply IH. intros b Hb. apply Hf. now right.
Qed.


(** ** Updating a project *)

Lemma filter_map_tm_index (proj_id : Z) (f : Project -> Project) (ps : list Project) :
  (forall p, tm_index (f p) = tm_index p) ->
  filter (tm_index_is proj_id) (map f ps) = map f (filter (tm_index_is proj_id) ps).
Proof.
  intros Hf.
  assert (Hi : forall p, tm_index_is proj_id (f p) = tm_index_is proj_id p)
    by (intros p; unfold tm_index_is; now rewrite Hf).
  induction ps as [|p ps IH]; cbn [map filter]; [reflexivity|].
  rewrite Hi. destruct (tm_index_is proj_id p); cbn [map]; now rewrite IH.
Qed.

Lemma tm_index_is_true (proj_id : Z) (p : Project) :
  tm_index_is proj_id p = true <-> tm_index p = Some proj_id.
Proof.
  unfold tm_index_is. destruct (tm_index p) as [i|].
  - rewrite Z.eqb_eq. split; [intros ->; reflexivity | intros [= ->]; reflexivity].
  - split; discriminate.
Qed.

Lemma tm_index_is_false (proj_id : Z) (p : Project) :
  tm_index_is proj_id p = false <-> tm_index p <> Some proj_id.
Proof.
  rewrite <- tm_index_is_true. destruct (tm_index_is proj_id p); split;
    congruence.
Qed.

Lemma filter_cons_inv {A : Type} (f : A -> bool) (l : list A) (a : A)
  (rest : list A) :
  filter f l = a :: rest ->
  exists l1 l2, l = l1 ++ a :: l2 /\ filter f l1 = [] /\ f a = true
                /\ filter f l2 = rest.
Proof.
  induction l as [|b l IH]; cbn [filter]; [discriminate|].
  destruct (f b) eqn:Eb.
  - intros [= -> <-]. exists [], l. repeat split. exact Eb.
  - intros E. destruct (IH E) as (l1 & l2 & -> & E1 & Ea & E2).
    exists (b :: l1), l2. cbn [filter app]. rewrite Eb. repeat split; assumption.
Qed.

(** X15.  For a [proj_id] that fits a 64-bit signed integer:
    [update_db_project] raises [NoResultFound] exactly when no project row
    has that [tm_index] (a NULL [tm_index] never matches), and
    [MultipleResultsFound] exactly when two different rows have it.
    Otherwise the one project with that [tm_index] gets the new geometry
    and hash and keeps its key and [tm_index]; every other project row,
    the order of the rows and the tile table are unchanged; and afterwards
    exactly one row has that [tm_index], holding the new values. *)
Theorem update_db_project_effect (proj_id : Z) (geojson geojson_hash : string)
  (session : Session) :
  fits_int64 proj_id ->
  (update_db_project proj_id geojson geojson_hash session = inl NoResultFound
   <-> Forall (fun p => tm_index p <> Some proj_id) (projects session))
  /\ (update_db_project proj_id geojson geojson_hash session
      = inl MultipleResultsFound
      <-> exists l1 p l2 q l3,
            projects session = l1 ++ p :: l2 ++ q :: l3
            /\ tm_index p = Some proj_id /\ tm_index q = Some proj_id)
  /\ (forall session',
        update_db_project proj_id geojson geojson_hash session = inr session' ->
        tile_preds session' = tile_preds session
        /\ Forall2 (fun p p' =>
                      project_pk p' = project_pk p
                      /\ tm_index p' = tm_index p
                      /\ (tm_index p = Some proj_id ->
                          md5_hash p' = Some geojson_hash
                          /\ json_geometry p' = Some geojson)
                      /\ (tm_index p <> Some proj_id -> p' = p))
                   (projects session) (projects session')
        /\ exists l1 p' l2,
             projects session' = l1 ++ p' :: l2
             /\ tm_index p' = Some proj_id
             /\ md5_hash p' = Some geojson_hash
             /\ json_geometry p' = Some geojson
             /\ Forall (fun q => tm_index q <> Some proj_id) (l1 ++ l2)).
Proof.
  intros _. unfold update_db_project.
  assert (Nil : forall l, filter (tm_index_is proj_id) l = []
                          <-> Forall (fun p => tm_index p <> Some proj_id) l).
  { intros l. rewrite filter_nil_iff, Forall_forall.
    split; intros H p Hp; apply tm_index_is_false; auto. }
  split; [|split].
  - rewrite <- Nil.
    destruct (filter _ _) as [|p [|q rest]]; cbn [one]; split; congruence.
  - split.
    + destruct (filter _ _) as [|p [|q rest]] eqn:E; cbn [one]; try congruence.
      intros _. apply filter_cons_inv in E as (l1 & l' & E & _ & Hp & E').
      apply filter_cons_inv in E' as (l2 & l3 & -> & _ & Hq & _).
      exists l1, p, l2, q, l3. repeat split;
        [exact E | now apply tm_index_is_true | now apply tm_index_is_true].
    + intros (l1 & p & l2 & q & l3 & -> & Hp & Hq).
      apply tm_index_is_true in Hp, Hq.
      rewrite filter_app. cbn [filter]. rewrite Hp, filter_app. cbn [filter].
      rewrite Hq.
      destruct (filter _ l1) as [|a [|a' r]]; cbn [app one];
        try reflexivity;
        destruct (filter _ l2) as [|c r2]; reflexivity.
  - intros session' E.
    destruct (filter _ _) as [|p [|q rest]] eqn:Esel; cbn [one] in E;
      try discriminate E.
    injection E as <-. cbn [tile_preds projects].
    split; [reflexivity|]. split.
    + clear Esel. induction (projects session) as [|a ps IH]; cbn [map]; constructor;
        [|exact IH].
      destruct (tm_index_is proj_id a) eqn:Ea;
        cbn [project_pk tm_index md5_hash json_geometry].
      * apply tm_index_is_true in Ea.
        split; [reflexivity|]. split; [reflexivity|]. split.
        -- intros _. split; reflexivity.
        -- intros Hn. contradiction.
      * apply tm_index_is_false in Ea.
        split; [reflexivity|]. split; [reflexivity|]. split.
        -- intros Hs. contradiction.
        -- reflexivity.
    + apply filter_cons_inv in Esel as (l1 & l2 & -> & E1 & Hp & E2).
      assert (Same : forall l, filter (tm_index_is proj_id) l = [] ->
                map (fun p0 => if tm_index_is proj_id p0
                               then mkProject (project_pk p0) (tm_index p0)
                                      (Some geojson_hash) (Some geojson)
                               else p0) l = l).
      { intros l El. rewrite <- (map_id l) at 2. apply map_ext_in.
        intros a Ha. rewrite filter_nil_iff in El. now rewrite (El a Ha). }
      rewrite map_app. cbn [map]. rewrite Hp, (Same l1 E1), (Same l2 E2).
      eexists l1, _, l2. split; [reflexivity|].
      cbn [tm_index md5_hash json_geometry].
      repeat split; [now apply tm_index_is_true|].
      apply Forall_app. split; now apply Nil.
Qed.

Lemma update_db_project_effect_witness :
  update_db_project 28 "geojson" "h1"
    (mkSession [mkProject 1 (Some 26) None None;
                mkProject 2 None None None] [])
  = inl NoResultFound
  /\ update_db_project 26 "geojson" "h1"
       (mkSession [mkProject 1 (Some 26) None None;
                   mkProject 2 (Some 27) None None;
                   mkProject 3 (Some 26) (Some "h0") None] [])
     = inl MultipleResultsFound.
Proof.
  split.
  - apply (update_db_project_effect 28 "geojson" "h1"
             (mkSession [mkProject 1 (Some 26) None None;
                         mkProject 2 None None None] [])).
    + unfold fits_int64. split; [vm_compute; discriminate | reflexivity].
    + cbn [projects]. repeat constructor; cbn [tm_index]; discriminate.
  - apply (update_db_project_effect 26 "geojson" "h1"
             (mkSession [mkProject 1 (Some 26) None None;
                         mkProject 2 (Some 27) None None;
                         mkProject 3 (Some 26) (Some "h0") None] [])).
    + unfold fits_int64. split; [vm_compute; discriminate | reflexivity].
    + exists [], (mkProject 1 (Some 26) None None),
        [mkProject 2 (Some 27) None None],
        (mkProject 3 (Some 26) (Some "h0") None), [].
      repeat split.
Defined.

(** X16.  Of two updates of the same project the last one wins: after a
    first update that went through, a second one gives the session that
    the second one alone gives (so repeating an update changes nothing). *)
Theorem update_db_project_last_wins (proj_id : Z)
  (geojson1 hash1 geojson2 hash2 : string) (session session1 : Session) :
  update_db_project proj_id geojson1 hash1 session = inr session1 ->
  update_db_project proj_id geojson2 hash2 session1
  = update_db_project proj_id geojson2 hash2 session.
Proof.
  unfold update_db_project. intros E.
  destruct (one (filter (tm_index_is proj_id) (projects session))) as [e|p] eqn:Eone;
    [discriminate E|].
  injection E as <-. cbn [projects tile_preds].
  rewrite filter_map_tm_index
    by (intros a; destruct (tm_index_is proj_id a); reflexivity).
  destruct (filter (tm_index_is proj_id) (projects session)) as [|q [|q' rest]];
    cbn [one] in Eone; try discriminate Eone.
  cbn [map one]. f_equal. f_equal. rewrite map_map. apply map_ext. intros a.
  destruct (tm_index_is proj_id a) eqn:Ea.
  - unfold tm_index_is. cbn [tm_index]. fold (tm_index_is proj_id a).
    rewrite Ea. reflexivity.
  - rewrite Ea. reflexivity.
Qed.

Lemma update_db_project_last_wins_witness :
  let session :=
    mkSession [mkProject 1 (Some 26) (Some "") (Some "");
               mkProject 2 (Some 27) None None] [] in
  update_db_project 26 "bad_geojson_str" "h2"
    (mkSession [mkProject 1 (Some 26) (Some "h1") (Some "geojson");
                mkProject 2 (Some 27) None None] [])
  = update_db_project 26 "bad_geojson_str" "h2" session.
Proof.
  intros session.
  apply (update_db_project_last_wins 26 "geojson" "h1" "bad_geojson_str" "h2" session).
  reflexivity.
Defined.

(** ** Augmenting a project with building areas *)

Lemma lookup_dict_set_same (d : list (string * value)) (k : string) (v : value) :
  lookup (dict_set d k v) k = Some v.
Proof.
  induction d as [|[k' x] d IH]; cbn [dict_set lookup].
  - now rewrite String.eqb_refl.
  - destruct (k' =? k)%string eqn:E; cbn [lookup]; rewrite E; [reflexivity | exact IH].
Qed.

Lemma lookup_dict_set_other (d : list (string * value)) (k k' : string) (v : value) :
  k' <> k -> lookup (dict_set d k v) k' = lookup d k'.
Proof.
  intros Ne. induction d as [|[k0 x] d IH]; cbn [dict_set lookup].
  - apply String.eqb_neq in Ne. rewrite String.eqb_sym in Ne. now rewrite Ne.
  - destruct (k0 =? k)%string eqn:E; cbn [lookup].
    + apply String.eqb_eq in E. subst k0.
      apply String.eqb_neq in Ne. rewrite String.eqb_sym in Ne. now rewrite Ne.
    + now rewrite IH.
Qed.

Lemma getitem_dict (obj v : value) (k : string) :
  getitem obj k = Ok v -> exists d, obj = VDict d /\ lookup d k = Some v.
Proof.
  destruct obj; try discriminate. cbn [getitem].
  destruct (lookup d k) eqn:E; [|discriminate]. intros [= <-]. eauto.
Qed.

Lemma getitem_set_same (d : list (string * value)) (k : string) (v : value) :
  getitem (VDict (dict_set d k v)) k = Ok v.
Proof. cbn [getitem]. now rewrite lookup_dict_set_same. Qed.

Lemma getitem_set_other (d : list (string * value)) (k k' : string) (v : value) :
  k' <> k -> getitem (VDict (dict_set d k v)) k' = getitem (VDict d) k'.
Proof. intros Ne. cbn [getitem]. now rewrite lookup_dict_set_other. Qed.

Lemma as_int_Ok (v : value) (n : Z) : as_int v = Ok n -> v = VInt n.
Proof. destruct v; try discriminate. now intros [= ->]. Qed.

(** What a task becomes. *)
Lemma augment_task_Ok (fuel : nat) (session : Session) (task task' : value) :
  augment_task fuel session task = Some (Ok task') ->
  exists dt dp x y z child_tiles ml osm,
    task = VDict dt
    /\ lookup dt "properties" = Some (VDict dp)
    /\ lookup dp "taskX" = Some (VInt x)
    /\ lookup dp "taskY" = Some (VInt y)
    /\ lookup dp "taskZoom" = Some (VInt z)
    /\ get_tile_pyramid fuel (dict_xyz x y z) 18 default_format
       = Some (Ok child_tiles)
    /\ get_total_tiles_building_area child_tiles session = Ok (ml, osm)
    /\ task'
       = VDict (dict_set dt "properties"
                  (VDict (dict_set (dict_set dp "building_area_ml_pred"
                                             (number_value ml))
                                   "building_area_osm" (number_value osm)))).
Proof.
  unfold augment_task. intros E.
  destruct (bind (getitem task "properties") _) as [tile_dict|e] eqn:Ed;
    [|discriminate E].
  apply bind_Ok_inv in Ed as (props & Ep & Ed).
  apply bind_Ok_inv in Ed as (tx & Ex & Ed).
  apply bind_Ok_inv in Ed as (ty & Ey & Ed).
  apply bind_Ok_inv in Ed as (tz & Ez & Ed).
  apply bind_Ok_inv in Ed as (x & Ex' & Ed).
  apply bind_Ok_inv in Ed as (y & Ey' & Ed).
  apply bind_Ok_inv in Ed as (z & Ez' & [= <-]).
  apply as_int_Ok in Ex' as ->, Ey' as ->, Ez' as ->.
  destruct (get_tile_pyramid fuel _ 18 default_format) as [[child_tiles|e]|] eqn:Ec;
    try discriminate E.
  injection E as E.
  apply bind_Ok_inv in E as ([ml osm] & Ea & E). rewrite Ep in E. cbn [bind] in E.
  apply getitem_dict in Ep as (dt & -> & Lp).
  apply getitem_dict in Ex as (dp & -> & Lx).
  apply getitem_dict in Ey as (dp' & [= <-] & Ly).
  apply getitem_dict in Ez as (dp' & [= <-] & Lz).
  cbn [setitem bind fst snd] in E. injection E as <-.
  exists dt, dp, x, y, z, child_tiles, ml, osm. repeat split; assumption.
Qed.

Lemma augment_tasks_Forall2 (fuel : nat) (session : Session) (l l' : list value) :
  augment_tasks fuel session l = Some (Ok l') ->
  Forall2 (fun task task' => augment_task fuel session task = Some (Ok task')) l l'.
Proof.
  revert l'. induction l as [|task l IH]; intros l' E; cbn [augment_tasks] in E.
  - injection E as <-. constructor.
  - destruct (augment_task fuel session task) as [[task1|e]|] eqn:Et;
      try discriminate E.
    destruct (augment_tasks fuel session l) as [[l1|e]|]; try discriminate E.
    injection E as <-. constructor; [exact Et | now apply IH].
Qed.

Lemma augment_task_stripped `{Builtins} (fuel : nat) (session : Session)
  (task task' : value) :
  augment_task fuel session task = Some (Ok task') ->
  stripped_task task' = stripped_task task.
Proof.
  intros E.
  apply augment_task_Ok in E
    as (dt & dp & x & y & z & cts & ml & osm & -> & Lp & _ & _ & _ & _ & _ & ->).
  assert (Gp : getitem (VDict dt) "properties" = Ok (VDict dp))
    by (cbn [getitem]; now rewrite Lp).
  unfold stripped_task. rewrite Gp, getitem_set_same. cbn [bind].
  rewrite (getitem_set_other _ _ "geometry") by discriminate.
  rewrite !(getitem_set_other _ _ "taskId") by discriminate.
  reflexivity.
Qed.

Lemma mapM_Forall2_ext {A B : Type} (f : A -> result B) (l l' : list A) :
  Forall2 (fun a a' => f a' = f a) l l' -> mapM f l' = mapM f l.
Proof.
  induction 1 as [|a a' l l' E F IH]; cbn [mapM]; [reflexivity|].
  now rewrite E, IH.
Qed.

(** The shape of a project that was augmented. *)
Lemma augment_geojson_building_area_Ok (fuel : nat) (project project' : value)
  (session : Session) :
  augment_geojson_building_area fuel project session = Some (Ok project') ->
  (project' = project
   /\ exists tasks features,
        getitem project "tasks" = Ok tasks
        /\ getitem tasks "features" = Ok features
        /\ forall l, features <> VList l)
  \/ exists d dtasks features features',
       project = VDict d
       /\ lookup d "tasks" = Some (VDict dtasks)
       /\ lookup dtasks "features" = Some (VList features)
       /\ augment_tasks fuel session features = Some (Ok features')
       /\ project'
          = VDict (dict_set d "tasks"
                     (VDict (dict_set dtasks "features" (VList features')))).
Proof.
  unfold augment_geojson_building_area. intros E.
  destruct (bind (getitem project "tasks") _) as [[[tasks features] fl]|e] eqn:Ed;
    [|discriminate E].
  apply bind_Ok_inv in Ed as (tasks0 & Et & Ed).
  apply bind_Ok_inv in Ed as (features0 & Ef & Ed).
  apply bind_Ok_inv in Ed as (fl0 & Ei & [= <- <- <-]).
  destruct (augment_tasks fuel session fl0) as [[fl1|e]|] eqn:Ea; try discriminate E.
  destruct features0;
    try (injection E as <-; left; split; [reflexivity|];
         eexists; eexists; split; [exact Et|]; split; [exact Ef | discriminate]).
  apply getitem_dict in Et as (d & -> & Lt).
  apply getitem_dict in Ef as (dtasks & -> & Lf).
  cbn [iter] in Ei. injection Ei as <-.
  cbn [setitem bind] in E. injection E as <-.
  right. exists d, dtasks, l, fl1. repeat split; assumption.
Qed.

(** X17.  Augmenting a project with building areas does not change what
    [get_stripped_geojson_tasks] makes of it: the augmented project is
    stripped to the same string (or fails in the same way), so its
    geometry hash is unchanged. *)
Theorem augment_geojson_building_area_stripped `{Builtins}
  (fuel : nat) (project project' : value) (session : Session) :
  augment_geojson_building_area fuel project session = Some (Ok project') ->
  get_stripped_geojson_tasks project' = get_stripped_geojson_tasks project.
Proof.
  intros E. apply augment_geojson_building_area_Ok in E
    as [[-> _]|(d & dtasks & features & features' & -> & Lt & Lf & Ea & ->)];
    [reflexivity|].
  rewrite (get_stripped_geojson_tasks_features _
             (VDict (dict_set dtasks "features" (VList features'))) features').
  - rewrite (get_stripped_geojson_tasks_features _ (VDict dtasks) features).
    + f_equal. apply mapM_Forall2_ext.
      apply augment_tasks_Forall2 in Ea.
      eapply Forall2_impl; [|exact Ea].
      intros task task' Et. now apply (augment_task_stripped fuel session).
    + cbn [getitem]. now rewrite Lt.
    + cbn [getitem]. now rewrite Lf.
  - apply getitem_set_same.
  - apply getitem_set_same.
Qed.

Lemma augment_geojson_building_area_stripped_witness :
  let task :=
    VDict [("geometry", VStr "g");
           ("properties", VDict [("taskId", VInt 338); ("taskX", VInt 1412);
                                 ("taskY", VInt 3520); ("taskZoom", VInt 17)])] in
  let session :=
    mkSession [] [mkTilePredBA 1 (Some 1) (Some "18-2825-7041")
                               (Some 0.5%float) (Some 1%float)] in
  @get_stripped_geojson_tasks sample_builtins
     (sample_project
        [VDict [("geometry", VStr "g");
                ("properties",
                 VDict [("taskId", VInt 338); ("taskX", VInt 1412);
                        ("taskY", VInt 3520); ("taskZoom", VInt 17);
                        ("building_area_ml_pred", VFloat (0 + 0.5)%float);
                        ("building_area_osm", VFloat (0 + 1)%float)])]])
  = @get_stripped_geojson_tasks sample_builtins (sample_project [task]).
Proof.
  intros task session.
  apply (@augment_geojson_building_area_stripped sample_builtins 5
           (sample_project [task]) _ session).
  vm_compute. reflexivity.
Defined.

(** X18.  In the project that [augment_geojson_building_area] returns for
    a project with a list of tasks, there are as many tasks as before and
    in the same order; each has under ['properties'] the two keys
    ['building_area_ml_pred'] and ['building_area_osm'], holding the
    totals of [get_total_tiles_building_area] over the zoom-18 pyramid of
    the task's tile; every other property, every other key of the task
    and every other key of the project is as it was. *)
Theorem augment_geojson_building_area_tasks (fuel : nat)
  (project project' tasks : value) (features : list value) (session : Session) :
  getitem project "tasks" = Ok tasks ->
  getitem tasks "features" = Ok (VList features) ->
  augment_geojson_building_area fuel project session = Some (Ok project') ->
  (forall k, k <> "tasks" -> getitem project' k = getitem project k)
  /\ exists tasks' features',
       getitem project' "tasks" = Ok tasks'
       /\ (forall k, k <> "features" -> getitem tasks' k = getitem tasks k)
       /\ getitem tasks' "features" = Ok (VList features')
       /\ Forall2
            (fun task task' =>
               (forall k, k <> "properties" -> getitem task' k = getitem task k)
               /\ exists properties properties' x y z child_tiles ml osm,
                    getitem task "properties" = Ok properties
                    /\ getitem task' "properties" = Ok properties'
                    /\ getitem properties "taskX" = Ok (VInt x)
                    /\ getitem properties "taskY" = Ok (VInt y)
                    /\ getitem properties "taskZoom" = Ok (VInt z)
                    /\ get_tile_pyramid fuel (dict_xyz x y z) 18 default_format
                       = Some (Ok child_tiles)
                    /\ get_total_tiles_building_area child_tiles session
                       = Ok (ml, osm)
                    /\ getitem properties' "building_area_ml_pred"
                       = Ok (number_value ml)
                    /\ getitem properties' "building_area_osm"
                       = Ok (number_value osm)
                    /\ (forall k, k <> "building_area_ml_pred" ->
                                  k <> "building_area_osm" ->
                                  getitem properties' k = getitem properties k))
            features features'.
Proof.
  intros Et Ef E.
  apply augment_geojson_building_area_Ok in E
    as [[_ (tasks0 & features0 & Et0 & Ef0 & Hn)]
       |(d & dtasks & fs & features' & -> & Lt & Lf & Ea & ->)].
  { exfalso. rewrite Et in Et0. injection Et0 as <-.
    rewrite Ef in Ef0. injection Ef0 as <-. now apply (Hn features). }
  cbn [getitem] in Et. rewrite Lt in Et. injection Et as <-.
  cbn [getitem] in Ef. rewrite Lf in Ef. injection Ef as <-.
  split; [intros k Hk; now apply getitem_set_other|].
  eexists. exists features'.
  split; [apply getitem_set_same|].
  split; [intros k Hk; now apply getitem_set_other|].
  split; [apply getitem_set_same|].
  apply augment_tasks_Forall2 in Ea.
  eapply Forall2_impl; [|exact Ea]. intros task task' Ea'.
  apply augment_task_Ok in Ea'
    as (dt & dp & x & y & z & cts & ml & osm & -> & Lp & Lx & Ly & Lz & Ec & Eg & ->).
  split; [intros k Hk; now apply getitem_set_other|].
  eexists. eexists. exists x, y, z, cts, ml, osm.
  split; [cbn [getitem]; now rewrite Lp|].
  split; [apply getitem_set_same|].
  split; [cbn [getitem]; now rewrite Lx|].
  split; [cbn [getitem]; now rewrite Ly|].
  split; [cbn [getitem]; now rewrite Lz|].
  split; [exact Ec|]. split; [exact Eg|].
  split; [rewrite getitem_set_other by discriminate; apply getitem_set_same|].
  split; [apply getitem_set_same|].
  intros k H1 H2. now rewrite !getitem_set_other by assumption.
Qed.

Lemma augment_geojson_building_area_tasks_witness :
  let task :=
    VDict [("geometry", VStr "g");
           ("properties", VDict [("taskId", VInt 338); ("taskX", VInt 1412);
                                 ("taskY", VInt 3520); ("taskZoom", VInt 17)])] in
  let session :=
    mkSession [] [mkTilePredBA 1 (Some 1) (Some "18-2825-7041")
                               (Some 0.5%float) (Some 1%float)] in
  exists project',
    augment_geojson_building_area 5 (sample_project [task]) session
    = Some (Ok project')
    /\ getitem project' "projectId"
       = getitem (sample_project [task]) "projectId".
Proof.
  intros task session.
  destruct (augment_geojson_building_area 5 (sample_project [task]) session)
    as [[project'|e]|] eqn:E;
    [|vm_compute in E; discriminate E|vm_compute in E; discriminate E].
  exists project'. split; [reflexivity|].
  apply (augment_geojson_building_area_tasks 5 (sample_project [task]) project'
           (VDict [("type", VStr "FeatureCollection");
                   ("features", VList [task])])
           [task] session);
    [reflexivity | reflexivity | exact E | discriminate].
Defined.
